(** * plot-spectrogram: a shallow embedding of [scripts/plot-spectrogram.py]

    The script reads a CSV produced by rf-scanner, parses a header of
    frequencies and rows of timestamped RSSI readings, prints a summary
    and hands the matrix to matplotlib.

    Modelling choices.
    - Python [str] is [string]; a character is a code point below 256.
    - Python [float] and numpy [float64] are IEEE 754 binary64, modelled by
      [spec_float] with precision 53 and maximal exponent 1024; every
      operation rounds to nearest, ties to even.
    - Python [int] is [Z]; a numpy array of integers carries its dtype,
      and 64-bit arithmetic wraps.
    - [int()], [float()], [str.strip], [str.split] and [format] follow
      CPython 3.11; [np.array] follows numpy 1.24 and later on a 64-bit
      platform (a ragged list of rows is a [ValueError]).
    - [print], [open] and every matplotlib call are events of a trace; a
      step of the script either goes on with a value or ends the process.
      A matplotlib call is recorded with its arguments when it is made;
      whether it then returns or raises inside the library is a fact of
      the environment, as is whether the file opens and decodes. Only
      [plt.subplots], which gets nothing from the file or the command
      line, is taken to return, and so is every [print].
    - The model starts after [parser.parse_args()], from the parsed
      arguments. *)

From Stdlib Require Import ZArith List String Ascii Bool Lia.
From Stdlib Require Import DecimalString.
From Stdlib Require Import Floats.SpecFloat.
Import ListNotations.

Local Open Scope string_scope.
Local Open Scope Z_scope.

(** ** Characters and text *)

Module Text.

Definition code (c : ascii) : Z := Z.of_nat (nat_of_ascii c).

(** [str.isspace] on a single code point below 256: the set that
    [str.strip()] removes. *)
Definition isspace (c : ascii) : bool :=
  let n := code c in
  ((9 <=? n) && (n <=? 13)) || ((28 <=? n) && (n <=? 32))
  || (n =? 133) || (n =? 160).

Definition isdigit (c : ascii) : bool :=
  let n := code c in (48 <=? n) && (n <=? 57).

Definition digit_val (c : ascii) : Z := code c - 48.

Definition lower (c : ascii) : ascii :=
  let n := code c in
  if (65 <=? n) && (n <=? 90) then ascii_of_nat (Z.to_nat (n + 32)) else c.

Definition is_empty (s : string) : bool :=
  match s with EmptyString => true | String _ _ => false end.

Section Strip.
Variable ws : ascii -> bool.

Fixpoint lstrip_with (s : string) : string :=
  match s with
  | EmptyString => EmptyString
  | String c r => if ws c then lstrip_with r else s
  end.

Fixpoint rstrip_with (s : string) : string :=
  match s with
  | EmptyString => EmptyString
  | String c r =>
      let r' := rstrip_with r in
      if is_empty r' && ws c then EmptyString else String c r'
  end.

Definition strip_with (s : string) : string := lstrip_with (rstrip_with s).
End Strip.

(** [s.strip()] *)
Definition strip : string -> string := strip_with isspace.

(** [s.split(sep)] for a one-character separator: never the empty list. *)
Fixpoint split (sep : ascii) (s : string) : list string :=
  match s with
  | EmptyString => [EmptyString]
  | String c r =>
      if Ascii.eqb c sep then EmptyString :: split sep r
      else match split sep r with
           | h :: t => String c h :: t
           | [] => [String c EmptyString]
           end
  end.

Definition LF : ascii := ascii_of_nat 10.
Definition CR : ascii := ascii_of_nat 13.

(** Text mode with the default [newline=None]: CR LF and a lone CR both
    read as LF. *)
Fixpoint universal_newlines (s : string) : string :=
  match s with
  | EmptyString => EmptyString
  | String c r =>
      if Ascii.eqb c CR then
        match r with
        | String d r' =>
            if Ascii.eqb d LF then String LF (universal_newlines r')
            else String LF (universal_newlines r)
        | EmptyString => String LF EmptyString
        end
      else String c (universal_newlines r)
  end.

(** [f.readline()]: the text up to and including the next LF, and what
    is left of the stream. *)
Fixpoint readline (s : string) : string * string :=
  match s with
  | EmptyString => (EmptyString, EmptyString)
  | String c r =>
      if Ascii.eqb c LF then (String c EmptyString, r)
      else let '(l, r') := readline r in (String c l, r')
  end.

(** [f.readlines()]: every remaining line, line ends kept. *)
Fixpoint readlines (s : string) : list string :=
  match s with
  | EmptyString => []
  | String c r =>
      if Ascii.eqb c LF then String c EmptyString :: readlines r
      else match readlines r with
           | h :: t => String c h :: t
           | [] => [String c EmptyString]
           end
  end.

(** [str(n)] for a non-negative integer. *)
Definition of_N (n : N) : string := NilZero.string_of_uint (N.to_uint n).

Definition of_nat (n : nat) : string := of_N (N.of_nat n).

End Text.

(** ** Binary64 *)

Module F64.

Definition prec : Z := 53.
Definition emax : Z := 1024.

Definition float : Type := spec_float.

Definition zero (s : bool) : float := S754_zero s.
Definition inf (s : bool) : float := S754_infinity s.
Definition nan : float := S754_nan.

(** The double nearest to an integer ([float(n)], or a C cast). *)
Definition of_Z (n : Z) : float := binary_normalize prec emax n 0 false.

Definition sub : float -> float -> float := SFsub prec emax.
Definition div : float -> float -> float := SFdiv prec emax.
Definition ltb : float -> float -> bool := SFltb.

Definition is_finite (x : float) : bool :=
  match x with
  | S754_zero _ | S754_finite _ _ _ => true
  | _ => false
  end.

Definition thousand : float := of_Z 1000.

(** The double nearest to [(-1)^neg * m * 10^e10], for [m >= 0]: what a
    correctly rounded decimal-to-binary conversion returns.  Overflow
    gives an infinity and underflow a signed zero. *)
Definition of_decimal (neg : bool) (m : Z) (e10 : Z) : float :=
  match m with
  | Zpos p =>
      if 0 <=? e10 then
        binary_round prec emax neg (p * Z.to_pos (10 ^ e10)) 0
      else
        let '(q, e, l) :=
          SFdiv_core_binary prec emax (Zpos p) 0 (10 ^ (- e10)) 0 in
        binary_round_aux prec emax neg q e l
  | _ => S754_zero neg
  end.

(** Round a non-negative rational [num / den] to the nearest integer,
    ties to even. *)
Definition round_half_even (num den : Z) : Z :=
  let q := num / den in
  let r := num mod den in
  match 2 * r ?= den with
  | Lt => q
  | Gt => q + 1
  | Eq => if Z.even q then q else q + 1
  end.

(** [|x| * 10^p] rounded to an integer, for a finite [x]. *)
Definition scaled_magnitude (p : nat) (x : float) : Z :=
  match x with
  | S754_finite _ m e =>
      let n := Zpos m * 10 ^ Z.of_nat p in
      if 0 <=? e then n * 2 ^ e else round_half_even n (2 ^ (- e))
  | _ => 0
  end.

Fixpoint zeros (n : nat) : string :=
  match n with O => EmptyString | S k => String "0" (zeros k) end.

(** Digits of [n] with a point before the last [p] of them. *)
Definition fixed_digits (p : nat) (n : Z) : string :=
  let ds := Text.of_N (Z.to_N n) in
  let ds := zeros (S p - String.length ds) ++ ds in
  let k := (String.length ds - p)%nat in
  match p with
  | O => ds
  | _ => substring 0 k ds ++ "." ++ substring k p ds
  end.

Definition sign_of (x : float) : bool :=
  match x with
  | S754_zero s | S754_infinity s | S754_finite s _ _ => s
  | S754_nan => false
  end.

(** [format(x, '.<p>f')] *)
Definition format_f (p : nat) (x : float) : string :=
  match x with
  | S754_nan => "nan"
  | S754_infinity s => if s then "-inf" else "inf"
  | _ => (if sign_of x then "-" else EmptyString) ++ fixed_digits p (scaled_magnitude p x)
  end.

End F64.

(** ** Python values, exceptions and the builtin conversions *)

Inductive exn : Type :=
| ValueError      (* a field that is not a number, a ragged matrix *)
| IndexError      (* indexing an empty array *)
| OverflowError   (* an integer too large for a float *)
| OSError         (* the file cannot be opened *)
| UnicodeDecodeError            (* the bytes of the file do not decode;
                                   a subclass of ValueError *)
| LibraryError (cls : string).  (* raised inside a matplotlib call: the
                                   name of its class *)

(** A pure computation that may raise. *)
Definition result (A : Type) : Type := exn + A.

Definition ok {A : Type} (a : A) : result A := inr a.
Definition raise {A : Type} (e : exn) : result A := inl e.

Definition rbind {A B : Type} (r : result A) (k : A -> result B) : result B :=
  match r with
  | inl e => inl e
  | inr a => k a
  end.

Module Builtins.
Import Text.

(** Characters of a string that [int()] and [float()] see: the two
    non-ASCII spaces become a blank, ASCII stays as it is, and
    everything else becomes a question mark. *)
Definition to_ascii_char (c : ascii) : ascii :=
  let n := code c in
  if n <? 127 then c
  else if (n =? 133) || (n =? 160) then " "%char
  else "?"%char.

Fixpoint to_ascii (s : string) : string :=
  match s with
  | EmptyString => EmptyString
  | String c r => String (to_ascii_char c) (to_ascii r)
  end.

Definition isspace_c (c : ascii) : bool :=
  let n := code c in ((9 <=? n) && (n <=? 13)) || (n =? 32).

Definition strip_c : string -> string := strip_with isspace_c.

(** A run of decimal digits: its value, its length and what follows. *)
Fixpoint digits (s : string) (acc : Z) (n : nat) : Z * nat * string :=
  match s with
  | String c r => if isdigit c then digits r (10 * acc + digit_val c) (S n)
                  else (acc, n, s)
  | EmptyString => (acc, n, s)
  end.

(** A run of digits in which single underscores may separate digits
    (the integer literal grammar of [int()]). *)
Fixpoint digits_us (s : string) (acc : Z) (n : nat) : Z * nat * string :=
  match s with
  | String c r =>
      if isdigit c then digits_us r (10 * acc + digit_val c) (S n)
      else if Ascii.eqb c "_" then
        match n, r with
        | S _, String d _ => if isdigit d then digits_us r acc n else (acc, n, s)
        | _, _ => (acc, n, s)
        end
      else (acc, n, s)
  | EmptyString => (acc, n, s)
  end.

Definition sign (s : string) : bool * string :=
  match s with
  | String "-" r => (true, r)
  | String "+" r => (false, r)
  | _ => (false, s)
  end.

(** The default limit on the number of digits [int()] converts. *)
Definition max_str_digits : nat := 4300.

(** [int(s)] *)
Definition int (s : string) : result Z :=
  let '(neg, body) := sign (strip_c (to_ascii s)) in
  let '(v, n, rest) := digits_us body 0 O in
  if is_empty rest && Nat.ltb 0 n && Nat.leb n max_str_digits
  then ok (if neg then - v else v)
  else raise ValueError.

(** Removal of the underscores of a float literal: one is allowed only
    between two digits. [None] when one is misplaced. *)
Fixpoint strip_underscores (prev : ascii) (s : string) : option string :=
  match s with
  | EmptyString => if Ascii.eqb prev "_" then None else Some EmptyString
  | String c r =>
      if Ascii.eqb c "_" then
        if isdigit prev then strip_underscores c r else None
      else if Ascii.eqb prev "_" && negb (isdigit c) then None
      else option_map (String c) (strip_underscores c r)
  end.

Fixpoint lower_string (s : string) : string :=
  match s with
  | EmptyString => EmptyString
  | String c r => String (lower c) (lower_string r)
  end.

(** The optional exponent of a float literal; [None] when an [e] is not
    followed by an integer. *)
Definition exponent (s : string) : option (Z * string) :=
  match s with
  | String c r =>
      if Ascii.eqb (lower c) "e" then
        let '(neg, r1) := sign r in
        let '(v, n, r2) := digits r1 0 O in
        match n with
        | O => None
        | S _ => Some (if neg then - v else v, r2)
        end
      else Some (0, s)
  | EmptyString => Some (0, s)
  end.

(** A decimal literal without its sign: digits, an optional point and
    fraction, an optional exponent; at least one digit before the
    exponent. *)
Definition decimal (neg : bool) (s : string) : option F64.float :=
  let '(i, ni, r1) := digits s 0 O in
  let '(m, nf, r2) :=
    match r1 with
    | String "." r => digits r i O
    | _ => (i, O, r1)
    end in
  match (ni + nf)%nat with
  | O => None
  | S _ =>
      match exponent r2 with
      | Some (e, EmptyString) => Some (F64.of_decimal neg m (e - Z.of_nat nf))
      | _ => None
      end
  end.

Definition special (neg : bool) (s : string) : option F64.float :=
  let w := lower_string s in
  if String.eqb w "inf" || String.eqb w "infinity" then Some (F64.inf neg)
  else if String.eqb w "nan" then Some F64.nan
  else None.

Definition starts_number (s : string) : bool :=
  match s with
  | String c _ => isdigit c || Ascii.eqb c "."
  | EmptyString => false
  end.

(** [float(s)] *)
Definition float (s : string) : result F64.float :=
  let a := to_ascii s in
  match strip_underscores " " a with
  | None => raise ValueError
  | Some t =>
      let '(neg, body) := sign (strip_c t) in
      match (if starts_number body then decimal neg body else special neg body) with
      | Some x => ok x
      | None => raise ValueError
      end
  end.

End Builtins.

(** [l[i]] with Python's negative indices. *)
Definition py_index {A : Type} (l : list A) (i : Z) : result A :=
  let n := Z.of_nat (List.length l) in
  let j := if i <? 0 then i + n else i in
  if (0 <=? j) && (j <? n) then
    match nth_error l (Z.to_nat j) with
    | Some a => ok a
    | None => raise IndexError
    end
  else raise IndexError.

(** A list comprehension [[f(x) for x in l]] whose body may raise. *)
Fixpoint map_result {A B : Type} (f : A -> result B) (l : list A)
  : result (list B) :=
  match l with
  | [] => ok []
  | x :: r => rbind (f x) (fun y => rbind (map_result f r) (fun ys => ok (y :: ys)))
  end.

(** ** The part of numpy the script uses *)

Module Numpy.

Inductive dtype : Type := Int64 | UInt64 | Float64 | Object.

Definition in_int64 (z : Z) : bool := (- 2 ^ 63 <=? z) && (z <? 2 ^ 63).
Definition in_uint64 (z : Z) : bool := (0 <=? z) && (z <? 2 ^ 64).

Definition wrap_int64 (z : Z) : Z := (z + 2 ^ 63) mod 2 ^ 64 - 2 ^ 63.
Definition wrap_uint64 (z : Z) : Z := z mod 2 ^ 64.

(** The dtype [np.array] finds for one Python integer. *)
Definition dtype_of_int (z : Z) : dtype :=
  if in_int64 z then Int64 else if in_uint64 z then UInt64 else Object.

Definition promote (a b : dtype) : dtype :=
  match a, b with
  | Object, _ | _, Object => Object
  | Float64, _ | _, Float64 => Float64
  | Int64, Int64 => Int64
  | UInt64, UInt64 => UInt64
  | Int64, UInt64 | UInt64, Int64 => Float64
  end.

(** The common dtype of a list of Python integers; the empty list is an
    array of float64. *)
Fixpoint common_dtype (l : list Z) : dtype :=
  match l with
  | [] => Float64
  | [z] => dtype_of_int z
  | z :: r => promote (dtype_of_int z) (common_dtype r)
  end.

(** A one-dimensional array built from Python integers. *)
Inductive int_array : Type :=
| ArrInt64 (l : list Z)
| ArrUInt64 (l : list Z)
| ArrFloat64 (l : list F64.float)
| ArrObject (l : list Z).

(** [np.array(l)] for a list of Python integers. *)
Definition array_of_ints (l : list Z) : int_array :=
  match common_dtype l with
  | Int64 => ArrInt64 l
  | UInt64 => ArrUInt64 l
  | Float64 => ArrFloat64 (map F64.of_Z l)
  | Object => ArrObject l
  end.

Definition size (a : int_array) : nat :=
  match a with
  | ArrInt64 l | ArrUInt64 l | ArrObject l => List.length l
  | ArrFloat64 l => List.length l
  end.

(** A Python integer divided by a float: the integer is first converted,
    which fails when it rounds beyond the largest double. *)
Definition int_truediv (z : Z) (y : F64.float) : result F64.float :=
  match F64.of_Z z with
  | S754_infinity _ => raise OverflowError
  | x => ok (F64.div x y)
  end.

(** [(a - a[0]) / 1000.0] *)
Definition relative_seconds (a : int_array) : result (list F64.float) :=
  match a with
  | ArrInt64 l =>
      rbind (py_index l 0) (fun t0 =>
      ok (map (fun t => F64.div (F64.of_Z (wrap_int64 (t - t0))) F64.thousand) l))
  | ArrUInt64 l =>
      rbind (py_index l 0) (fun t0 =>
      ok (map (fun t => F64.div (F64.of_Z (wrap_uint64 (t - t0))) F64.thousand) l))
  | ArrFloat64 l =>
      rbind (py_index l 0) (fun t0 =>
      ok (map (fun t => F64.div (F64.sub t t0) F64.thousand) l))
  | ArrObject l =>
      rbind (py_index l 0) (fun t0 =>
      map_result (fun t => int_truediv (t - t0) F64.thousand) l)
  end.

(** [np.array(rows)] for a list of lists of floats: a matrix when the
    rows have one length, a [ValueError] when they are ragged. *)
Definition array2d (rows : list (list F64.float)) : result (list (list F64.float)) :=
  match rows with
  | [] => ok rows
  | r :: _ =>
      if forallb (fun r' => Nat.eqb (List.length r') (List.length r)) rows
      then ok rows else raise ValueError
  end.

End Numpy.

(** ** Effects: what the process does that can be observed *)

Inductive event : Type :=
| Stdout (line : string)                     (* [print(...)] *)
| Stderr (line : string)                  (* [print(..., file=sys.stderr)] *)
| OpenFile (path : string)                  (* [open(path, 'r')] *)
| Subplots (width height : Z)               (* [plt.subplots(figsize=...)] *)
| Imshow (data : list (list F64.float)) (extent : list F64.float)
         (cmap : string) (vmin vmax : F64.float)
| SetXlabel (label : string)
| SetYlabel (label : string)
| SetTitle (title : string)
| Colorbar (label : string)
| TightLayout
| Savefig (path : string) (dpi : Z)         (* [plt.savefig(path, dpi=...)] *)
| PltShow.                                     (* [plt.show()], blocking *)

(** How the process ends: [sys.exit(code)] or falling off the end of
    [main] (code 0), or an exception nobody catches (the interpreter
    then prints a traceback and the status is 1). *)
Inductive outcome : Type :=
| Exit (code : Z)
| Uncaught (e : exn).

(** The status the shell sees: the interpreter turns an uncaught
    exception into status 1. *)
Definition exit_status (o : outcome) : Z :=
  match o with
  | Exit c => c
  | Uncaught _ => 1
  end.

(** A step of the script: the events so far, and either a value to go on
    with or the end of the process. *)
Definition prog (A : Type) : Type := list event * (outcome + A).

Definition ret {A : Type} (a : A) : prog A := ([], inr a).

Definition bind {A B : Type} (m : prog A) (k : A -> prog B) : prog B :=
  match m with
  | (t, inl o) => (t, inl o)
  | (t, inr a) => let '(t', r) := k a in ((t ++ t')%list, r)
  end.

Definition emit (e : event) : prog unit := ([e], inr tt).

Definition sys_exit {A : Type} (code : Z) : prog A := ([], inl (Exit code)).

(** A pure computation inside the script: an exception it raises is not
    caught. *)
Definition lift {A : Type} (r : result A) : prog A :=
  match r with
  | inl e => ([], inl (Uncaught e))
  | inr a => ([], inr a)
  end.

(** The whole process: falling off the end is exit code 0. *)
Definition run (m : prog unit) : list event * outcome :=
  match m with
  | (t, inl o) => (t, o)
  | (t, inr tt) => (t, Exit 0)
  end.

Declare Scope prog_scope.
Delimit Scope prog_scope with prog.
Notation "x <- m ;; k" := (bind m (fun x => k))
  (at level 61, m at next level, right associativity) : prog_scope.
Notation "m ;; k" := (bind m (fun _ => k))
  (at level 61, right associativity) : prog_scope.
Notation "' p <- m ;; k" := (bind m (fun x => let 'p := x in k))
  (at level 61, p pattern, m at next level, right associativity) : prog_scope.

(** Projections of a trace. *)
Definition stdout (t : list event) : list string :=
  flat_map (fun e => match e with Stdout s => [s] | _ => [] end) t.

Definition stderr (t : list event) : list string :=
  flat_map (fun e => match e with Stderr s => [s] | _ => [] end) t.

Definition opened (t : list event) : list string :=
  flat_map (fun e => match e with OpenFile p => [p] | _ => [] end) t.

Definition saved (t : list event) : list string :=
  flat_map (fun e => match e with Savefig p _ => [p] | _ => [] end) t.

Definition shown (t : list event) : nat :=
  List.length (filter (fun e => match e with PltShow => true | _ => false end) t).

Definition extents (t : list event) : list (list F64.float) :=
  flat_map (fun e => match e with Imshow _ x _ _ _ => [x] | _ => [] end) t.

(** An event that draws, writes or displays an image. *)
Definition is_image_event (e : event) : bool :=
  match e with
  | Subplots _ _ | Imshow _ _ _ _ _ | SetXlabel _ | SetYlabel _ | SetTitle _
  | Colorbar _ | TightLayout | Savefig _ _ | PltShow => true
  | Stdout _ | Stderr _ | OpenFile _ => false
  end.

Definition no_image (t : list event) : Prop :=
  forallb (fun e => negb (is_image_event e)) t = true.

(** ** The script *)

(** The parsed command line. *)
Record args : Type := {
  csvfile : string;
  output : option string;     (* [None] when [-o] is not given *)
  cmap : string;
  vmin : F64.float;
  vmax : F64.float
}.

(** Why no text can be read from a file: it does not open, or it opens
    and its bytes do not decode. *)
Inductive read_failure : Type := NotOpened | NotDecoded.

Definition read_error (f : read_failure) : exn :=
  match f with
  | NotOpened => OSError
  | NotDecoded => UnicodeDecodeError
  end.

(** What the script finds around it. *)
Record env : Type := {
  matplotlib_installed : bool;
  file_text : string -> option string;    (* decoded text, [None]: none can be read *)
  file_failure : string -> read_failure;  (* why, when none can be read *)
  library_raises : event -> option string (* the class of the exception a
                                             matplotlib call raises inside
                                             the library, [None]: it returns *)
}.

Local Open Scope prog_scope.

(** Lines 24-28: the deferred import. *)
Definition import_matplotlib (w : env) : prog unit :=
  if matplotlib_installed w then ret tt
  else
    emit (Stderr "Error: matplotlib not installed. Install with: pip install matplotlib") ;;
    sys_exit 1.

(** Lines 32-34: the header line, stripped, and the other lines. When
    the file does not open, or [readline] or [readlines] cannot decode
    it, nothing has been read and the exception is not caught. *)
Definition read_csv (w : env) (path : string) : prog (string * list string) :=
  emit (OpenFile path) ;;
  match file_text w path with
  | None => lift (raise (read_error (file_failure w path)))
  | Some raw =>
      let text := Text.universal_newlines raw in
      let '(first, rest) := Text.readline text in
      ret (Text.strip first, Text.readlines rest)
  end.

(** Lines 37-38. *)
Definition parse_header (header : string) : result (list F64.float) :=
  let cols := Text.split "," header in
  map_result Builtins.float (tl cols).

(** Lines 43-48: the loop over the data lines, with the two lists it
    appends to. *)
Fixpoint parse_rows (lines : list string)
    (timestamps : list Z) (rssi_data : list (list F64.float))
  : result (list Z * list (list F64.float)) :=
  match lines with
  | [] => ok (timestamps, rssi_data)
  | line :: rest =>
      let parts := Text.split "," (Text.strip line) in
      if Nat.ltb (List.length parts) 2 then parse_rows rest timestamps rssi_data
      else
        rbind (Builtins.int (hd EmptyString parts)) (fun t =>
        rbind (map_result Builtins.float (tl parts)) (fun row =>
        parse_rows rest (timestamps ++ [t])%list (rssi_data ++ [row])%list))
  end.

(** The truth value of [args.output]: set and not empty. *)
Definition output_path (a : args) : option string :=
  match output a with
  | Some p => if Text.is_empty p then None else Some p
  | None => None
  end.

Definition loaded_line (frames bins : nat) : string :=
  "Loaded " ++ Text.of_nat frames ++ " frames, " ++ Text.of_nat bins ++ " frequency bins".

Definition range_line (lo hi : F64.float) : string :=
  "Frequency range: " ++ F64.format_f 3 lo ++ " - " ++ F64.format_f 3 hi ++ " MHz".

Definition duration_line (d : F64.float) : string :=
  "Duration: " ++ F64.format_f 2 d ++ " seconds".

(** Lines 63-65. *)
Definition summary (ts : Numpy.int_array) (freqs time_sec : list F64.float)
  : prog unit :=
  emit (Stdout (loaded_line (Numpy.size ts) (List.length freqs))) ;;
  lo <- lift (py_index freqs 0) ;;
  hi <- lift (py_index freqs (-1)) ;;
  emit (Stdout (range_line lo hi)) ;;
  d <- lift (py_index time_sec (-1)) ;;
  emit (Stdout (duration_line d)).

(** A call into matplotlib: the call is made, and then it returns or
    raises inside the library; the script catches nothing. *)
Definition call (w : env) (e : event) : prog unit :=
  emit e ;;
  match library_raises w e with
  | None => ret tt
  | Some cls => lift (raise (LibraryError cls))
  end.

(** Lines 68-83. [plt.subplots] gets nothing but constants and is taken
    to return; every later call may raise. The extent is built between
    the two, from the first and last entries of both axes. *)
Definition plot (a : args) (w : env) (rssi_matrix : list (list F64.float))
    (freqs time_sec : list F64.float) : prog unit :=
  emit (Subplots 12 6) ;;
  x0 <- lift (py_index freqs 0) ;;
  x1 <- lift (py_index freqs (-1)) ;;
  y0 <- lift (py_index time_sec (-1)) ;;
  y1 <- lift (py_index time_sec 0) ;;
  call w (Imshow rssi_matrix [x0; x1; y0; y1] (cmap a) (vmin a) (vmax a)) ;;
  call w (SetXlabel "Frequency (MHz)") ;;
  call w (SetYlabel "Time (seconds)") ;;
  call w (SetTitle ("RF Spectrogram - " ++ csvfile a)) ;;
  call w (Colorbar "RSSI (dBm)") ;;
  call w TightLayout.

(** Lines 85-89: the confirmation is printed only after [savefig] has
    returned. *)
Definition deliver (a : args) (w : env) : prog unit :=
  match output_path a with
  | Some p => call w (Savefig p 150) ;; emit (Stdout ("Saved to " ++ p))
  | None => call w PltShow
  end.

(** Lines 36-89: everything after the file is read. The environment
    comes last: only the plotting calls look at it. *)
Definition process (a : args) (header : string) (lines : list string) (w : env)
  : prog unit :=
  freqs <- lift (parse_header header) ;;
  ' (timestamps, rssi_data) <- lift (parse_rows lines [] []) ;;
  match rssi_data with
  | [] => emit (Stderr "Error: No data rows found in CSV") ;; sys_exit 1
  | _ :: _ =>
      rssi_matrix <- lift (Numpy.array2d rssi_data) ;;
      let ts := Numpy.array_of_ints timestamps in
      time_sec <- lift (Numpy.relative_seconds ts) ;;
      summary ts freqs time_sec ;;
      plot a w rssi_matrix freqs time_sec ;;
      deliver a w
  end.

Definition reading_line (a : args) : string := "Reading " ++ csvfile a ++ "...".

(** [main()], from the parsed arguments on. *)
Definition main (a : args) (w : env) : list event * outcome :=
  run (import_matplotlib w ;;
       emit (Stdout (reading_line a)) ;;
       ' (header, lines) <- read_csv w (csvfile a) ;;
       process a header lines w).

Local Close Scope prog_scope.

(** ** Vocabulary of the properties *)

(** A data line that splits into fewer than two fields. *)
Definition few_fields (line : string) : Prop :=
  (List.length (Text.split "," (Text.strip line)) < 2)%nat.

(** The events of the three stages of a complete run. *)
Definition summary_events (frames bins : nat) (lo hi d : F64.float) : list event :=
  [Stdout (loaded_line frames bins); Stdout (range_line lo hi); Stdout (duration_line d)].

Definition plot_events (a : args) (m : list (list F64.float))
    (x0 x1 y0 y1 : F64.float) : list event :=
  [Subplots 12 6;
   Imshow m [x0; x1; y0; y1] (cmap a) (vmin a) (vmax a);
   SetXlabel "Frequency (MHz)"; SetYlabel "Time (seconds)";
   SetTitle ("RF Spectrogram - " ++ csvfile a);
   Colorbar "RSSI (dBm)"; TightLayout].

Definition deliver_events (a : args) : list event :=
  match output_path a with
  | Some p => [Savefig p 150; Stdout ("Saved to " ++ p)]
  | None => [PltShow]
  end.

(** The call that delivers the figure. *)
Definition delivery_call (a : args) : event :=
  match output_path a with
  | Some p => Savefig p 150
  | None => PltShow
  end.

(** The calls into matplotlib that may raise, in the order of the
    source: the six that draw, then the one that delivers. *)
Definition library_calls (a : args) (m : list (list F64.float))
    (x0 x1 y0 y1 : F64.float) : list event :=
  (tl (plot_events a m x0 x1 y0 y1) ++ [delivery_call a])%list.

(** What becomes of a sequence of calls: those that are made, and the
    class of the exception that the last of them raises, when one does. *)
Fixpoint made (w : env) (l : list event) : list event * option string :=
  match l with
  | [] => ([], None)
  | e :: r =>
      match library_raises w e with
      | Some cls => ([e], Some cls)
      | None => (e :: fst (made w r), snd (made w r))
      end
  end.




(** The data of a file that went through every conversion. *)
Record loaded (header : string) (lines : list string)
    (freqs : list F64.float) (ts : list Z) (m : list (list F64.float))
    (time_sec : list F64.float) : Prop := {
  ld_header : parse_header header = ok freqs;
  ld_rows : parse_rows lines [] [] = ok (ts, m);
  ld_some : m <> [];
  ld_matrix : Numpy.array2d m = ok m;
  ld_time : Numpy.relative_seconds (Numpy.array_of_ints ts) = ok time_sec
}.

(** The header and the data lines that [read_csv] returns for a text. *)
Definition header_of (raw : string) : string :=
  Text.strip (fst (Text.readline (Text.universal_newlines raw))).

Definition lines_of (raw : string) : list string :=
  Text.readlines (snd (Text.readline (Text.universal_newlines raw))).

Definition finish (r : outcome + unit) : outcome :=
  match r with
  | inl o => o
  | inr _ => Exit 0
  end.

(** Sample data. *)
Definition nl : string := String Text.LF EmptyString.

Definition sample_csv : string :=
  "t,1.0,2.0,3.0" ++ nl ++ "0,-50,-60,-70" ++ nl ++ "1000,-55,-65,-75" ++ nl.

Definition sample_args (out : option string) : args :=
  {| csvfile := "spectrum.csv"; output := out; cmap := "viridis";
     vmin := F64.of_Z (-80); vmax := F64.of_Z (-30) |}.

Definition sample_env (installed : bool) (text : string) : env :=
  {| matplotlib_installed := installed;
     file_text := fun p => if String.eqb p "spectrum.csv" then Some text else None;
     file_failure := fun _ => NotOpened;
     library_raises := fun _ => None |}.


(** An environment whose CSV file is not text: its bytes do not decode. *)
Definition binary_file_env : env :=
  {| matplotlib_installed := true;
     file_text := fun _ => None;
     file_failure := fun _ => NotDecoded;
     library_raises := fun _ => None |}.

(** An environment in which [imshow] rejects what it is given. *)
Definition bad_image_env (text : string) : env :=
  {| matplotlib_installed := true;
     file_text := file_text (sample_env true text);
     file_failure := fun _ => NotOpened;
     library_raises := fun e =>
       match e with
       | Imshow _ _ _ _ _ => Some "ValueError"
       | _ => None
       end |}.

(** The smallest and the largest of a non-empty list of floats, as
    [min()] and [max()] find them: the first one among equals. *)
Definition py_min (x : F64.float) (l : list F64.float) : F64.float :=
  fold_left (fun m y => if F64.ltb y m then y else m) l x.

Definition py_max (x : F64.float) (l : list F64.float) : F64.float :=
  fold_left (fun m y => if F64.ltb m y then y else m) l x.

(** The frequency-range line in the words of the specification: the
    minimum and the maximum frequency. *)
Definition claimed_range_line (freqs : list F64.float) : string :=
  match freqs with
  | [] => EmptyString
  | x :: r => range_line (py_min x r) (py_max x r)
  end.

(** The relative time axis in the words of the specification: every
    timestamp minus the first one, divided by 1000 (the difference and
    the quotient each as the nearest double). *)
Definition claimed_time_axis (ts : list Z) : list F64.float :=
  map (fun t => F64.div (F64.of_Z (t - hd 0 ts)) F64.thousand) ts.

Definition unsorted_csv : string :=
  "t,3.0,1.0,2.0" ++ nl ++ "0,-50,-60,-70" ++ nl.

(** The line that confirms a saved image, when there is one. *)
Definition confirmation (a : args) : list string :=
  match output_path a with
  | Some p => ["Saved to " ++ p]
  | None => []
  end.

(** A header whose frequencies strictly increase. *)
Fixpoint ascending (l : list F64.float) : bool :=
  match l with
  | x :: (y :: _) as r => F64.ltb x y && ascending r
  | _ => true
  end.

(** The comparison of two floats that are not NaN, as a lexicographic
    comparison of integer triples: class, exponent, mantissa. *)
Definition key (x : F64.float) : Z * Z * Z :=
  match x with
  | S754_zero _ => (0, 0, 0)
  | S754_infinity s => (if s then -2 else 2, 0, 0)
  | S754_nan => (0, 0, 0)
  | S754_finite s m e => if s then (-1, - e, - Zpos m) else (1, e, Zpos m)
  end.

Definition lt3 (a b : Z * Z * Z) : Prop :=
  let '(a1, a2, a3) := a in
  let '(b1, b2, b3) := b in
  a1 < b1 \/ (a1 = b1 /\ (a2 < b2 \/ (a2 = b2 /\ a3 < b3))).

Definition is_nan (x : F64.float) : bool :=
  match x with S754_nan => true | _ => false end.

(** ** Vocabulary of the further properties *)

(** How often a character occurs in a string. *)
Fixpoint count_char (c : ascii) (s : string) : nat :=
  match s with
  | EmptyString => O
  | String d r => ((if Ascii.eqb d c then 1 else 0) + count_char c r)%nat
  end.

(** A line the row loop does not skip. *)
Definition kept (line : string) : bool :=
  negb (Nat.ltb (List.length (Text.split "," (Text.strip line))) 2).

(** What the body of the row loop computes for a line it keeps: the
    timestamp and the readings. *)
Definition row_of (line : string) : result (Z * list F64.float) :=
  let parts := Text.split "," (Text.strip line) in
  rbind (Builtins.int (hd EmptyString parts)) (fun t =>
  rbind (map_result Builtins.float (tl parts)) (fun row => ok (t, row))).

(** The same text with Windows line ends. *)
Fixpoint crlf (s : string) : string :=
  match s with
  | EmptyString => EmptyString
  | String c r =>
      if Ascii.eqb c Text.LF then String Text.CR (String Text.LF (crlf r))
      else String c (crlf r)
  end.


(** The environment in which the file named on the command line has the
    given text. *)
Definition with_text (w : env) (path text : string) : env :=
  {| matplotlib_installed := matplotlib_installed w;
     file_text := fun p => if String.eqb p path then Some text else file_text w p;
     file_failure := file_failure w;
     library_raises := library_raises w |}.

(** The eight ways the part of the script after the read can go: the
    trace [t] it leaves and how it ends ([inr tt]: it reached the end). *)
Inductive process_case (a : args) (w : env) (header : string) (lines : list string)
    (t : list event) (r : outcome + unit) : Prop :=
| BadHeader :
    parse_header header = raise ValueError ->
    t = [] -> r = inl (Uncaught ValueError) ->
    process_case a w header lines t r
| BadRow (freqs : list F64.float) :
    parse_header header = ok freqs ->
    parse_rows lines [] [] = raise ValueError ->
    t = [] -> r = inl (Uncaught ValueError) ->
    process_case a w header lines t r
| NoRows (freqs : list F64.float) (ts : list Z) :
    parse_header header = ok freqs ->
    parse_rows lines [] [] = ok (ts, []) ->
    t = [Stderr "Error: No data rows found in CSV"] -> r = inl (Exit 1) ->
    process_case a w header lines t r
| Ragged (freqs : list F64.float) (ts : list Z) (m : list (list F64.float)) :
    parse_header header = ok freqs ->
    parse_rows lines [] [] = ok (ts, m) -> m <> [] ->
    Numpy.array2d m = raise ValueError ->
    t = [] -> r = inl (Uncaught ValueError) ->
    process_case a w header lines t r
| TooLarge (freqs : list F64.float) (ts : list Z) (m : list (list F64.float)) :
    parse_header header = ok freqs ->
    parse_rows lines [] [] = ok (ts, m) -> m <> [] ->
    Numpy.array2d m = ok m ->
    Numpy.relative_seconds (Numpy.array_of_ints ts) = raise OverflowError ->
    Numpy.common_dtype ts = Numpy.Object ->
    t = [] -> r = inl (Uncaught OverflowError) ->
    process_case a w header lines t r
| NoFrequencies (ts : list Z) (m : list (list F64.float)) (time_sec : list F64.float) :
    loaded header lines [] ts m time_sec ->
    t = [Stdout (loaded_line (List.length m) 0)] -> r = inl (Uncaught IndexError) ->
    process_case a w header lines t r
| Complete (freqs : list F64.float) (ts : list Z) (m : list (list F64.float))
    (time_sec : list F64.float) :
    loaded header lines freqs ts m time_sec -> freqs <> [] ->
    (forall e, In e (library_calls a m (hd F64.nan freqs) (last freqs F64.nan)
                       (last time_sec F64.nan) (hd F64.nan time_sec)) ->
               library_raises w e = None) ->
    t = (summary_events (List.length m) (List.length freqs)
           (hd F64.nan freqs) (last freqs F64.nan) (last time_sec F64.nan)
         ++ plot_events a m (hd F64.nan freqs) (last freqs F64.nan)
              (last time_sec F64.nan) (hd F64.nan time_sec)
         ++ deliver_events a)%list ->
    r = inr tt ->
    process_case a w header lines t r
| LibraryRaised (freqs : list F64.float) (ts : list Z) (m : list (list F64.float))
    (time_sec : list F64.float) (pre : list event) (e : event) (post : list event)
    (cls : string) :
    loaded header lines freqs ts m time_sec -> freqs <> [] ->
    library_calls a m (hd F64.nan freqs) (last freqs F64.nan)
      (last time_sec F64.nan) (hd F64.nan time_sec) = (pre ++ e :: post)%list ->
    (forall x, In x pre -> library_raises w x = None) ->
    library_raises w e = Some cls ->
    t = (summary_events (List.length m) (List.length freqs)
           (hd F64.nan freqs) (last freqs F64.nan) (last time_sec F64.nan)
         ++ Subplots 12 6 :: pre ++ [e])%list ->
    r = inl (Uncaught (LibraryError cls)) ->
    process_case a w header lines t r.

(** The ways a whole run can go. *)
Inductive main_case (a : args) (w : env) (t : list event) (o : outcome) : Prop :=
| NoMatplotlib :
    matplotlib_installed w = false ->
    t = [Stderr "Error: matplotlib not installed. Install with: pip install matplotlib"] ->
    o = Exit 1 ->
    main_case a w t o
| NoFile :
    matplotlib_installed w = true -> file_text w (csvfile a) = None ->
    t = [Stdout (reading_line a); OpenFile (csvfile a)] ->
    o = Uncaught (read_error (file_failure w (csvfile a))) ->
    main_case a w t o
| Processed (raw : string) (t' : list event) (r : outcome + unit) :
    matplotlib_installed w = true -> file_text w (csvfile a) = Some raw ->
    process_case a w (header_of raw) (lines_of raw) t' r ->
    t = Stdout (reading_line a) :: OpenFile (csvfile a) :: t' -> o = finish r ->
    main_case a w t o.

(** * Properties *)

Arguments loaded_line : simpl never.
Arguments range_line : simpl never.
Arguments duration_line : simpl never.
Arguments String.append : simpl never.
Arguments py_index : simpl never.
Arguments Numpy.array2d : simpl never.
Arguments Numpy.array_of_ints : simpl never.
Arguments Numpy.relative_seconds : simpl never.

(** ** The conversions on concrete inputs *)

Example split_examples :
  Text.split "," "a,b,," = ["a"; "b"; EmptyString; EmptyString] /\
  Text.split "," EmptyString = [EmptyString] /\
  Text.split "," "no comma" = ["no comma"].
Proof. repeat split. Qed.

Example strip_examples :
  Text.strip ("  0,-50 " ++ nl) = "0,-50" /\ Text.strip nl = EmptyString.
Proof. repeat split. Qed.

Example readlines_examples :
  Text.readline ("a" ++ nl ++ "b" ++ nl ++ nl ++ "c") = ("a" ++ nl, "b" ++ nl ++ nl ++ "c") /\
  Text.readlines ("b" ++ nl ++ nl ++ "c") = ["b" ++ nl; nl; "c"] /\
  Text.readline EmptyString = (EmptyString, EmptyString) /\
  Text.readlines EmptyString = [].
Proof. repeat split. Qed.

Example int_examples :
  Builtins.int "1700000000000" = ok 1700000000000 /\
  Builtins.int " -12 " = ok (-12) /\
  Builtins.int "1_000" = ok 1000 /\
  Builtins.int "007" = ok 7 /\
  Builtins.int "1.0" = raise ValueError /\
  Builtins.int "1__0" = raise ValueError /\
  Builtins.int "- 1" = raise ValueError /\
  Builtins.int EmptyString = raise ValueError.
Proof. repeat split. Qed.

Example float_examples :
  Builtins.float "1.0" = ok (F64.of_Z 1) /\
  Builtins.float " -71.5" = ok (S754_finite true 5031365208702976 (-46)) /\
  Builtins.float "0.1" = ok (S754_finite false 7205759403792794 (-56)) /\
  Builtins.float "1e23" = ok (S754_finite false 5960464477539062 24) /\
  Builtins.float ".5" = ok (S754_finite false 4503599627370496 (-53)) /\
  Builtins.float "1_0.5" = Builtins.float "10.5" /\
  Builtins.float "1e400" = ok (F64.inf false) /\
  Builtins.float "-1e-400" = ok (F64.zero true) /\
  Builtins.float "-Infinity" = ok (F64.inf true) /\
  Builtins.float "NaN" = ok F64.nan /\
  Builtins.float EmptyString = raise ValueError /\
  Builtins.float "." = raise ValueError /\
  Builtins.float "1e" = raise ValueError /\
  Builtins.float "1_.5" = raise ValueError /\
  Builtins.float "0x10" = raise ValueError.
Proof. repeat split; vm_compute; reflexivity. Qed.

Example format_examples :
  F64.format_f 3 (F64.of_decimal false 43392 (-2)) = "433.920" /\
  F64.format_f 3 (F64.of_decimal false 5 (-4)) = "0.001" /\
  F64.format_f 2 (F64.of_decimal false 1005 (-3)) = "1.00" /\
  F64.format_f 2 (F64.of_decimal false 125 (-3)) = "0.12" /\
  F64.format_f 3 (F64.of_decimal true 1 (-4)) = "-0.000" /\
  F64.format_f 2 (F64.of_Z (- 2 ^ 63)) = "-9223372036854775808.00" /\
  F64.format_f 3 (F64.inf true) = "-inf" /\
  F64.format_f 2 F64.nan = "nan".
Proof. repeat split; vm_compute; reflexivity. Qed.

Example array_of_ints_examples :
  Numpy.array_of_ints [0; 1000] = Numpy.ArrInt64 [0; 1000] /\
  Numpy.array_of_ints [2 ^ 63] = Numpy.ArrUInt64 [2 ^ 63] /\
  Numpy.array_of_ints [2 ^ 63; -1] = Numpy.ArrFloat64 [F64.of_Z (2 ^ 63); F64.of_Z (-1)] /\
  Numpy.array_of_ints [2 ^ 64; 5] = Numpy.ArrObject [2 ^ 64; 5].
Proof. repeat split. Qed.

(** ** The [prog] monad *)

Section ProgLaws.
Context {A B : Type}.

Lemma bind_ret (a : A) (k : A -> prog B) : bind (ret a) k = k a.
Proof. unfold bind, ret. destruct (k a); reflexivity. Qed.

Lemma bind_lift_ok (a : A) (k : A -> prog B) : bind (lift (ok a)) k = k a.
Proof. unfold bind, lift, ok. destruct (k a); reflexivity. Qed.

Lemma bind_lift_raise (e : exn) (k : A -> prog B) :
  bind (lift (raise e)) k = ([], inl (Uncaught e)).
Proof. reflexivity. Qed.

Lemma bind_stop (t : list event) (o : outcome) (k : A -> prog B) :
  bind (t, inl o) k = (t, inl o).
Proof. reflexivity. Qed.
End ProgLaws.

Lemma bind_emit {B : Type} (e : event) (k : unit -> prog B) :
  bind (emit e) k = (e :: fst (k tt), snd (k tt)).
Proof. unfold bind, emit. destruct (k tt); reflexivity. Qed.

(** ** Indexing *)

Lemma py_index_first {A : Type} (l : list A) (x : A) :
  py_index l 0 = ok x <-> hd_error l = Some x.
Proof.
  unfold py_index, ok, raise. destruct l as [|y l]; simpl.
  - split; discriminate.
  - split; intros H; inversion H; reflexivity.
Qed.

Lemma py_index_last {A : Type} (l : list A) (x d : A) :
  py_index l (-1) = ok x <-> l <> [] /\ last l d = x.
Proof.
  unfold py_index, ok, raise.
  destruct l as [|y l] using rev_ind.
  - simpl. split; [discriminate | intros [H _]; contradiction].
  - clear IHl. rewrite last_last, length_app. simpl List.length.
    replace (-1 <? 0) with true by reflexivity.
    replace (-1 + Z.of_nat (List.length l + 1)) with (Z.of_nat (List.length l)) by lia.
    replace ((0 <=? Z.of_nat (List.length l)) &&
             (Z.of_nat (List.length l) <? Z.of_nat (List.length l + 1))) with true
      by (symmetry; apply andb_true_iff; split;
          [apply Z.leb_le | apply Z.ltb_lt]; lia).
    rewrite Nat2Z.id, nth_error_app2, Nat.sub_diag by lia. simpl.
    split.
    + intros H; inversion H; split; [|reflexivity].
      intros E; apply app_eq_nil in E; destruct E; discriminate.
    + intros [_ ->]; reflexivity.
Qed.

Lemma py_index_empty {A : Type} (i : Z) : py_index (@nil A) i = raise IndexError.
Proof.
  unfold py_index. simpl.
  destruct (i <? 0) eqn:E.
  - replace (i + 0) with i by lia.
    replace (0 <=? i) with false by (symmetry; apply Z.leb_gt, Z.ltb_lt, E).
    reflexivity.
  - destruct (0 <=? i); simpl; [|reflexivity].
    replace (i <? 0) with false. reflexivity.
Qed.

(** ** The row loop *)

Lemma split_nonempty (sep : ascii) (s : string) : Text.split sep s <> [].
Proof.
  destruct s as [|c r]; simpl; [discriminate|].
  destruct (Ascii.eqb c sep); [discriminate|].
  destruct (Text.split sep r); discriminate.
Qed.

Lemma parse_rows_skip (line : string) (rest : list string)
    (ts : list Z) (rs : list (list F64.float)) :
  few_fields line -> parse_rows (line :: rest) ts rs = parse_rows rest ts rs.
Proof.
  unfold few_fields. intros H. simpl.
  apply Nat.ltb_lt in H. rewrite H. reflexivity.
Qed.

Lemma parse_rows_app (pre post : list string) :
  forall ts rs,
    parse_rows (pre ++ post) ts rs =
    rbind (parse_rows pre ts rs) (fun p => parse_rows post (fst p) (snd p)).
Proof.
  induction pre as [|line pre IH]; intros ts rs; simpl; [reflexivity|].
  destruct (Nat.ltb _ 2); [apply IH|].
  destruct (Builtins.int _) as [e|t]; simpl; [reflexivity|].
  destruct (map_result _ _) as [e|row]; simpl; [reflexivity|].
  apply IH.
Qed.

Lemma parse_rows_drop (pre post : list string) (line : string) :
  few_fields line ->
  forall ts rs,
    parse_rows (pre ++ line :: post) ts rs = parse_rows (pre ++ post) ts rs.
Proof.
  intros H ts rs. rewrite !parse_rows_app.
  destruct (parse_rows pre ts rs) as [e|[ts1 rs1]]; simpl; [reflexivity|].
  apply parse_rows_skip, H.
Qed.

Lemma process_drop a header (pre post : list string) (line : string) :
  few_fields line ->
  process a header (pre ++ line :: post) = process a header (pre ++ post).
Proof.
  intros H. unfold process. rewrite (parse_rows_drop pre post line H [] []). reflexivity.
Qed.

(** The two lists grow together: one timestamp for every row. *)
Lemma parse_rows_parallel (lines : list string) :
  forall ts rs ts' rs',
    parse_rows lines ts rs = ok (ts', rs') ->
    List.length ts = List.length rs ->
    List.length ts' = List.length rs'.
Proof.
  induction lines as [|line lines IH]; intros ts rs ts' rs' H L; simpl in H.
  - inversion H; subst; exact L.
  - destruct (Nat.ltb _ 2); [eapply IH; eassumption|].
    destruct (Builtins.int _) as [e|t]; simpl in H; [discriminate|].
    destruct (map_result _ _) as [e|row]; simpl in H; [discriminate|].
    eapply IH; [eassumption|]. rewrite !length_app. simpl. lia.
Qed.

(** A row that is kept has at least one reading. *)
Lemma map_result_length {A B : Type} (f : A -> result B) (l : list A) (l' : list B) :
  map_result f l = ok l' -> List.length l' = List.length l.
Proof.
  revert l'. induction l as [|x l IH]; intros l' H; simpl in H.
  - inversion H; reflexivity.
  - destruct (f x) as [e|y]; simpl in H; [discriminate|].
    destruct (map_result f l) as [e|ys]; simpl in H; [discriminate|].
    inversion H; subst; simpl. f_equal. apply IH; reflexivity.
Qed.

(** ** The arrays of a loaded dataset *)

Lemma size_array_of_ints (l : list Z) :
  Numpy.size (Numpy.array_of_ints l) = List.length l.
Proof.
  unfold Numpy.array_of_ints. destruct (Numpy.common_dtype l); simpl;
    rewrite ?length_map; reflexivity.
Qed.

Lemma array2d_same (rows m : list (list F64.float)) :
  Numpy.array2d rows = ok m -> m = rows.
Proof.
  unfold Numpy.array2d. destruct rows as [|r rows]; [inversion 1; reflexivity|].
  destruct (forallb _ _); inversion 1; reflexivity.
Qed.

Lemma relative_seconds_length (l : list Z) (axis : list F64.float) :
  Numpy.relative_seconds (Numpy.array_of_ints l) = ok axis ->
  List.length axis = List.length l.
Proof.
  unfold Numpy.array_of_ints, Numpy.relative_seconds.
  destruct (Numpy.common_dtype l);
    (destruct (py_index _ 0) as [e|t0]; simpl; [discriminate|]);
    try (inversion 1; rewrite ?length_map; reflexivity).
  apply map_result_length.
Qed.

Lemma loaded_time_length header lines freqs ts m time_sec :
  loaded header lines freqs ts m time_sec ->
  List.length time_sec = List.length m /\ List.length ts = List.length m.
Proof.
  intros [_ Hr _ _ Ht].
  apply relative_seconds_length in Ht.
  apply parse_rows_parallel in Hr; [|reflexivity].
  split; congruence.
Qed.

Lemma nonempty_first_last {A : Type} (l : list A) :
  l <> [] -> exists x y, py_index l 0 = ok x /\ py_index l (-1) = ok y.
Proof.
  intros H. destruct l as [|x l]; [contradiction|].
  exists x, (last (x :: l) x). split.
  - apply py_index_first. reflexivity.
  - apply (py_index_last _ _ x). split; [discriminate | reflexivity].
Qed.

Lemma length_nonempty {A B : Type} (l : list A) (l' : list B) :
  List.length l = List.length l' -> l' <> [] -> l <> [].
Proof. destruct l, l'; simpl; intros; congruence. Qed.

Lemma py_index_hd {A : Type} (l : list A) (d : A) :
  l <> [] -> py_index l 0 = ok (hd d l).
Proof.
  intros H. apply py_index_first. destruct l; [contradiction | reflexivity].
Qed.

Lemma py_index_end {A : Type} (l : list A) (d : A) :
  l <> [] -> py_index l (-1) = ok (last l d).
Proof. intros H. apply (py_index_last l _ d). split; [exact H | reflexivity]. Qed.

(** ** Calls into the library *)

Lemma made_all (w : env) (l : list event) :
  (forall e, In e l -> library_raises w e = None) -> made w l = (l, None).
Proof.
  induction l as [|e l IH]; intros H; [reflexivity|]. simpl.
  rewrite (H e) by (left; reflexivity).
  rewrite IH by (intros x Hx; apply H; right; exact Hx). reflexivity.
Qed.

Lemma made_stops (w : env) (pre post : list event) (e : event) (cls : string) :
  (forall x, In x pre -> library_raises w x = None) ->
  library_raises w e = Some cls ->
  made w (pre ++ e :: post) = ((pre ++ [e])%list, Some cls).
Proof.
  intros Hp He. induction pre as [|x pre IH]; simpl.
  - rewrite He. reflexivity.
  - rewrite (Hp x) by (left; reflexivity).
    rewrite IH by (intros y Hy; apply Hp; right; exact Hy). reflexivity.
Qed.

(** Either every call returns, or there is a first one that raises. *)
Lemma calls_cases (w : env) (l : list event) :
  (forall e, In e l -> library_raises w e = None) \/
  (exists pre e post cls,
     l = (pre ++ e :: post)%list /\
     (forall x, In x pre -> library_raises w x = None) /\
     library_raises w e = Some cls).
Proof.
  induction l as [|e l IH]; [left; intros e []|].
  destruct (library_raises w e) as [cls|] eqn:He.
  - right. exists [], e, l, cls. split; [reflexivity|]. split; [intros x []|exact He].
  - destruct IH as [IH | (pre & e' & post & cls & -> & Hp & He')].
    + left. intros x [<-|Hx]; [exact He | apply IH, Hx].
    + right. exists (e :: pre), e', post, cls. split; [reflexivity|].
      split; [|exact He']. intros x [<-|Hx]; [exact He | apply Hp, Hx].
Qed.

(** ** Runs of [process] *)

(** The run on a loaded dataset with at least one frequency: the summary,
    [subplots], and then the calls into the library as far as they go;
    the confirmation of a saved image only when all of them return. *)
Lemma process_loaded a w header lines freqs ts m time_sec :
  loaded header lines freqs ts m time_sec -> freqs <> [] ->
  process a header lines w =
    let r := made w (library_calls a m (hd F64.nan freqs) (last freqs F64.nan)
                       (last time_sec F64.nan) (hd F64.nan time_sec)) in
    ((summary_events (List.length m) (List.length freqs)
        (hd F64.nan freqs) (last freqs F64.nan) (last time_sec F64.nan)
      ++ Subplots 12 6 :: fst r
      ++ match snd r with
         | None => map Stdout (confirmation a)
         | Some _ => []
         end)%list,
     match snd r with
     | None => inr tt
     | Some cls => inl (Uncaught (LibraryError cls))
     end).
Proof.
  intros L Hf.
  destruct (loaded_time_length _ _ _ _ _ _ L) as [Lt Ls].
  assert (Hn : time_sec <> [])
    by (eapply length_nonempty; [exact Lt | apply (ld_some _ _ _ _ _ _ L)]).
  destruct L as [Hh Hr Hs Hm Ht].
  unfold process. rewrite Hh, bind_lift_ok, Hr, bind_lift_ok.
  destruct m as [|r0 m]; [contradiction|].
  rewrite Hm, bind_lift_ok, Ht, bind_lift_ok.
  unfold summary, plot, deliver, library_calls, delivery_call, confirmation, call.
  rewrite size_array_of_ints, Ls.
  rewrite (py_index_hd freqs F64.nan Hf), (py_index_end freqs F64.nan Hf),
    (py_index_hd time_sec F64.nan Hn), (py_index_end time_sec F64.nan Hn).
  destruct (output_path a) as [p|]; simpl;
    repeat match goal with
           | |- context [library_raises w ?e] => destruct (library_raises w e); simpl
           end; reflexivity.
Qed.

(** A run in which every call into the library returns reaches the end
    of the script. *)
Lemma process_complete a w header lines freqs ts m time_sec :
  loaded header lines freqs ts m time_sec -> freqs <> [] ->
  (forall e, In e (library_calls a m (hd F64.nan freqs) (last freqs F64.nan)
                     (last time_sec F64.nan) (hd F64.nan time_sec)) ->
             library_raises w e = None) ->
  process a header lines w =
    ((summary_events (List.length m) (List.length freqs)
        (hd F64.nan freqs) (last freqs F64.nan) (last time_sec F64.nan)
      ++ plot_events a m (hd F64.nan freqs) (last freqs F64.nan)
           (last time_sec F64.nan) (hd F64.nan time_sec)
      ++ deliver_events a)%list, inr tt).
Proof.
  intros L Hf Hq. rewrite (process_loaded a w _ _ _ _ _ _ L Hf). cbv zeta.
  rewrite (made_all w _ Hq).
  unfold library_calls, delivery_call, deliver_events, confirmation.
  destruct (output_path a); reflexivity.
Qed.

(** A run in which a call into the library raises ends there. *)
Lemma process_raised a w header lines freqs ts m time_sec pre e post cls :
  loaded header lines freqs ts m time_sec -> freqs <> [] ->
  library_calls a m (hd F64.nan freqs) (last freqs F64.nan)
    (last time_sec F64.nan) (hd F64.nan time_sec) = (pre ++ e :: post)%list ->
  (forall x, In x pre -> library_raises w x = None) ->
  library_raises w e = Some cls ->
  process a header lines w =
    ((summary_events (List.length m) (List.length freqs)
        (hd F64.nan freqs) (last freqs F64.nan) (last time_sec F64.nan)
      ++ Subplots 12 6 :: pre ++ [e])%list, inl (Uncaught (LibraryError cls))).
Proof.
  intros L Hf Hc Hp He. rewrite (process_loaded a w _ _ _ _ _ _ L Hf). cbv zeta.
  rewrite Hc, (made_stops w pre post e cls Hp He). simpl fst. simpl snd.
  rewrite app_nil_r. reflexivity.
Qed.

(** ** Runs of [main] *)

Lemma main_no_matplotlib a w :
  matplotlib_installed w = false ->
  main a w =
    ([Stderr "Error: matplotlib not installed. Install with: pip install matplotlib"],
     Exit 1).
Proof. intros H. unfold main, import_matplotlib. rewrite H. reflexivity. Qed.

Lemma main_no_file a w :
  matplotlib_installed w = true -> file_text w (csvfile a) = None ->
  main a w = ([Stdout (reading_line a); OpenFile (csvfile a)],
              Uncaught (read_error (file_failure w (csvfile a)))).
Proof.
  intros H1 H2. unfold main, import_matplotlib, read_csv. rewrite H1, H2. reflexivity.
Qed.

Lemma main_read a w raw :
  matplotlib_installed w = true -> file_text w (csvfile a) = Some raw ->
  main a w =
    (Stdout (reading_line a) :: OpenFile (csvfile a)
       :: fst (process a (header_of raw) (lines_of raw) w),
     finish (snd (process a (header_of raw) (lines_of raw) w))).
Proof.
  intros H1 H2. unfold main, import_matplotlib, read_csv, header_of, lines_of.
  rewrite H1, H2, bind_ret, bind_emit.
  destruct (Text.readline _) as [first rest]. simpl.
  destruct (process _ _ _ _) as [t [o|[]]]; reflexivity.
Qed.


(** ** Integers as doubles never overflow below 2^64 *)

Section Rounding.

Lemma digits2_pos_size (p : positive) : digits2_pos p = Pos.size p.
Proof. induction p; simpl; congruence. Qed.

Lemma Zdigits2_upper (m k : Z) : 0 <= k -> 0 <= m < 2 ^ k -> Zdigits2 m <= k.
Proof.
  intros Hk [H0 Hm]. destruct m as [|p|p]; simpl; [lia | | lia].
  rewrite digits2_pos_size.
  pose proof (Pos.size_le p) as Hs.
  assert (H : 2 ^ Zpos (Pos.size p) <= 2 * Zpos p).
  { change (2 * Zpos p) with (Zpos p~0).
    rewrite <- Pos2Z.inj_pow. apply Pos2Z.pos_le_pos, Hs. }
  destruct (Z.le_gt_cases (Zpos (Pos.size p)) k) as [L|G]; [exact L|].
  assert (2 ^ (k + 1) <= 2 ^ Zpos (Pos.size p))
    by (apply Z.pow_le_mono_r; lia).
  rewrite Z.pow_add_r in H1 by lia. lia.
Qed.

Lemma shl_value (p d : positive) : Zpos (Pos.iter xO p d) = Zpos p * 2 ^ Zpos d.
Proof.
  induction d as [|d IH] using Pos.peano_ind.
  - simpl Pos.iter. rewrite Pos2Z.inj_xO. lia.
  - rewrite Pos.iter_succ, Pos2Z.inj_xO, IH, Pos2Z.inj_succ, Z.pow_succ_r by lia.
    lia.
Qed.

Lemma shr_1_bounds (r : shr_record) :
  0 <= shr_m r -> 0 <= shr_m (shr_1 r) <= shr_m r.
Proof.
  destruct r as [m b s]. simpl.
  destruct m as [|[p|p|]|[p|p|]]; simpl; lia.
Qed.

Lemma iter_shr_1_bounds (n : positive) :
  forall r, 0 <= shr_m r -> 0 <= shr_m (iter_pos shr_1 n r) <= shr_m r.
Proof.
  induction n as [n IH|n IH|]; intros r Hr; simpl.
  - pose proof (shr_1_bounds r Hr) as H1.
    pose proof (IH (shr_1 r) (proj1 H1)) as H2.
    pose proof (IH _ (proj1 H2)) as H3. lia.
  - pose proof (IH r Hr) as H2.
    pose proof (IH _ (proj1 H2)) as H3. lia.
  - apply shr_1_bounds, Hr.
Qed.

Lemma shr_fexp_bounds (m e : Z) (l : location) :
  0 <= m ->
  let '(r, e') := shr_fexp F64.prec F64.emax m e l in
  0 <= shr_m r <= m /\
  (e' = e \/ e' = fexp F64.prec F64.emax (Zdigits2 m + e)).
Proof.
  intros Hm. unfold shr_fexp, shr.
  assert (H0 : shr_m (shr_record_of_loc m l) = m)
    by (destruct l as [|[]]; reflexivity).
  destruct (fexp F64.prec F64.emax (Zdigits2 m + e) - e) as [|n|n] eqn:En.
  - rewrite H0. split; [lia | left; reflexivity].
  - pose proof (iter_shr_1_bounds n (shr_record_of_loc m l)) as H.
    rewrite H0 in H. split; [apply H, Hm | right; lia].
  - rewrite H0. split; [lia | left; reflexivity].
Qed.

Lemma round_nearest_even_bounds (m : Z) (l : location) :
  m <= round_nearest_even m l <= m + 1.
Proof. destruct l as [|[]]; simpl; try lia. destruct (Z.even m); lia. Qed.

Lemma fexp_binary64 (x : Z) : fexp F64.prec F64.emax x = Z.max (x - 53) (-1074).
Proof. unfold fexp, emin, F64.prec, F64.emax. lia. Qed.

(** Rounding a value below 2^116 with a non-positive exponent stays
    within the finite doubles. *)
Lemma binary_round_aux_finite (s : bool) (m e : Z) (l : location) :
  0 <= m < 2 ^ 116 -> e <= 0 ->
  F64.is_finite (binary_round_aux F64.prec F64.emax s m e l) = true.
Proof.
  intros [Hm0 Hm] He. unfold binary_round_aux.
  pose proof (shr_fexp_bounds m e l Hm0) as H1.
  destruct (shr_fexp F64.prec F64.emax m e l) as [r1 e1].
  destruct H1 as [[Hr0 Hr1] He1].
  pose proof (round_nearest_even_bounds (shr_m r1) (loc_of_shr_record r1)) as Hn.
  set (m1 := round_nearest_even (shr_m r1) (loc_of_shr_record r1)) in *.
  assert (Hd : Zdigits2 m <= 116) by (apply Zdigits2_upper; lia).
  assert (Hd0 : 0 <= Zdigits2 m) by (destruct m; simpl; lia).
  assert (Be1 : e1 <= 63).
  { destruct He1 as [->| ->]; [lia|].
    rewrite fexp_binary64. lia. }
  assert (Hm1 : 0 <= m1 < 2 ^ 117).
  { replace (2 ^ 117) with (2 * 2 ^ 116) by reflexivity. lia. }
  pose proof (shr_fexp_bounds m1 e1 loc_Exact (proj1 Hm1)) as H2.
  destruct (shr_fexp F64.prec F64.emax m1 e1 loc_Exact) as [r2 e2].
  destruct H2 as [[Hs0 Hs1] He2].
  assert (Hd1 : Zdigits2 m1 <= 117) by (apply Zdigits2_upper; lia).
  assert (Hd10 : 0 <= Zdigits2 m1) by (destruct m1; simpl; lia).
  assert (Be2 : e2 <= 971).
  { destruct He2 as [->| ->]; [lia|].
    rewrite fexp_binary64. lia. }
  destruct (shr_m r2) as [|p|p]; [reflexivity | | lia].
  replace (e2 <=? F64.emax - F64.prec) with true; [reflexivity|].
  symmetry. apply Z.leb_le. unfold F64.emax, F64.prec. lia.
Qed.

Lemma binary_round_finite (s : bool) (p : positive) :
  Zpos p < 2 ^ 64 ->
  F64.is_finite (binary_round F64.prec F64.emax s p 0) = true.
Proof.
  intros Hp. unfold binary_round, shl_align.
  assert (Hd : Zpos (digits2_pos p) <= 64)
    by (apply (Zdigits2_upper (Zpos p) 64); lia).
  assert (Hf : fexp F64.prec F64.emax (Zpos (digits2_pos p) + 0)
               = Zpos (digits2_pos p) - 53)
    by (rewrite fexp_binary64; lia).
  rewrite Hf.
  destruct (Zpos (digits2_pos p) - 53 - 0) as [|d|d] eqn:Ed.
  - apply binary_round_aux_finite; lia.
  - apply binary_round_aux_finite; lia.
  - apply binary_round_aux_finite; [|lia].
    rewrite shl_value. split; [lia|].
    assert (Zpos d <= 52) by lia.
    assert (2 ^ Zpos d <= 2 ^ 52) by (apply Z.pow_le_mono_r; lia).
    assert (Zpos p * 2 ^ Zpos d <= Zpos p * 2 ^ 52)
      by (apply Z.mul_le_mono_nonneg_l; lia).
    assert (Zpos p * 2 ^ 52 < 2 ^ 64 * 2 ^ 52)
      by (apply Z.mul_lt_mono_pos_r; lia).
    replace (2 ^ 116) with (2 ^ 64 * 2 ^ 52) by reflexivity. lia.
Qed.

End Rounding.

(** An integer that fits 64 bits, signed or unsigned, has a finite
    double. *)
Lemma of_Z_finite (z : Z) :
  - 2 ^ 64 < z < 2 ^ 64 -> F64.is_finite (F64.of_Z z) = true.
Proof.
  intros H. unfold F64.of_Z, binary_normalize.
  destruct z as [|p|p]; [reflexivity | |]; apply binary_round_finite; lia.
Qed.

(** ** The relative time axis *)

Lemma sub_self (x : F64.float) :
  F64.is_finite x = true -> F64.sub x x = F64.zero false.
Proof.
  destruct x as [s|s| |s m e]; simpl; try discriminate; intros _.
  - destruct s; reflexivity.
  - unfold F64.sub, SFsub. rewrite Z.sub_diag. reflexivity.
Qed.

Lemma zero_over_thousand : F64.div (F64.zero false) F64.thousand = F64.zero false.
Proof. reflexivity. Qed.

Lemma wrap_int64_small (z : Z) : Numpy.in_int64 z = true -> Numpy.wrap_int64 z = z.
Proof.
  unfold Numpy.in_int64, Numpy.wrap_int64. intros H.
  apply andb_true_iff in H. destruct H as [H1 H2].
  apply Z.leb_le in H1. apply Z.ltb_lt in H2.
  rewrite Z.mod_small; lia.
Qed.

Lemma common_dtype_int64 (l : list Z) :
  l <> [] -> (forall t, In t l -> Numpy.in_int64 t = true) ->
  Numpy.common_dtype l = Numpy.Int64.
Proof.
  induction l as [|z l IH]; intros Hn H; [contradiction|].
  assert (Hz : Numpy.dtype_of_int z = Numpy.Int64)
    by (unfold Numpy.dtype_of_int; rewrite (H z (or_introl eq_refl)); reflexivity).
  destruct l as [|z' l]; [exact Hz|].
  change (Numpy.promote (Numpy.dtype_of_int z) (Numpy.common_dtype (z' :: l)) = Numpy.Int64).
  rewrite Hz, IH; [reflexivity | discriminate |].
  intros t Ht. apply H. right. exact Ht.
Qed.

Lemma dtype_of_int_bounds (z : Z) :
  Numpy.dtype_of_int z <> Numpy.Object -> - 2 ^ 64 < z < 2 ^ 64.
Proof.
  unfold Numpy.dtype_of_int, Numpy.in_int64, Numpy.in_uint64. intros H.
  destruct ((- 2 ^ 63 <=? z) && (z <? 2 ^ 63)) eqn:E1.
  - apply andb_true_iff in E1. destruct E1 as [A B].
    apply Z.leb_le in A. apply Z.ltb_lt in B. lia.
  - destruct ((0 <=? z) && (z <? 2 ^ 64)) eqn:E2; [|contradiction H; reflexivity].
    apply andb_true_iff in E2. destruct E2 as [A B].
    apply Z.leb_le in A. apply Z.ltb_lt in B. lia.
Qed.

Lemma promote_object (a b : Numpy.dtype) :
  Numpy.promote a b <> Numpy.Object -> a <> Numpy.Object /\ b <> Numpy.Object.
Proof. destruct a, b; simpl; intros H; split; congruence. Qed.

Lemma common_dtype_bounds (l : list Z) :
  Numpy.common_dtype l <> Numpy.Object ->
  forall t, In t l -> - 2 ^ 64 < t < 2 ^ 64.
Proof.
  induction l as [|z l IH]; intros H t Ht; [contradiction|].
  destruct l as [|z' l].
  - destruct Ht as [<-|[]]. apply dtype_of_int_bounds, H.
  - change (Numpy.promote (Numpy.dtype_of_int z) (Numpy.common_dtype (z' :: l))
            <> Numpy.Object) in H.
    apply promote_object in H. destruct H as [Hz Hl].
    destruct Ht as [<-|Ht]; [apply dtype_of_int_bounds, Hz | apply IH; assumption].
Qed.

(** Whatever the dtype, the axis starts at +0.0. *)
Lemma time_axis_starts_at_zero (ts : list Z) (axis : list F64.float) :
  Numpy.relative_seconds (Numpy.array_of_ints ts) = ok axis ->
  hd_error axis = Some (F64.zero false).
Proof.
  unfold Numpy.array_of_ints, Numpy.relative_seconds.
  destruct (Numpy.common_dtype ts) eqn:Ed; destruct ts as [|t0 ts];
    try (simpl map; rewrite py_index_empty; discriminate).
  - rewrite (py_index_hd _ 0) by discriminate. simpl. unfold ok. intros H.
    injection H as <-. rewrite Z.sub_diag. reflexivity.
  - rewrite (py_index_hd _ 0) by discriminate. simpl. unfold ok. intros H.
    injection H as <-. rewrite Z.sub_diag. reflexivity.
  - simpl map. rewrite (py_index_hd _ F64.nan) by discriminate. simpl.
    unfold ok. intros H. injection H as <-.
    rewrite sub_self; [reflexivity|].
    apply of_Z_finite, (common_dtype_bounds (t0 :: ts));
      [rewrite Ed; discriminate | left; reflexivity].
  - rewrite (py_index_hd _ 0) by discriminate. simpl. rewrite Z.sub_diag.
    change (Numpy.int_truediv 0 F64.thousand) with (ok (F64.zero false)). simpl.
    destruct (map_result _ ts) as [e|ys]; simpl; [discriminate|].
    unfold ok. intros H. injection H as <-. reflexivity.
Qed.


(** ** When the first and the last frequency are the range *)

Ltac key_case :=
  let K := fresh "K" in
  let A := fresh "A" in
  let B := fresh "B" in
  let C := fresh "C" in
  split;
  [ intros K; try discriminate K; repeat split; try reflexivity; lia
  | intros (A & B & C); try discriminate A; try discriminate B;
    try reflexivity; exfalso; lia ].

Lemma ltb_key (a b : F64.float) :
  F64.ltb a b = true <-> is_nan a = false /\ is_nan b = false /\ lt3 (key a) (key b).
Proof.
  unfold F64.ltb, SFltb, lt3.
  destruct a as [[]|[]| |[] m1 e1], b as [[]|[]| |[] m2 e2]; simpl;
    try key_case;
    change (Pos.compare_cont Eq m1 m2) with (Pos.compare m1 m2);
    (destruct (Z.compare_spec e1 e2); [destruct (Pos.compare_spec m1 m2)| |]);
    simpl; key_case.
Qed.

Lemma ltb_trans (a b c : F64.float) :
  F64.ltb a b = true -> F64.ltb b c = true -> F64.ltb a c = true.
Proof.
  rewrite !ltb_key. intros (A1 & A2 & A3) (B1 & B2 & B3).
  repeat split; try assumption.
  unfold lt3 in *.
  destruct (key a) as [[a1 a2] a3], (key b) as [[b1 b2] b3], (key c) as [[c1 c2] c3].
  lia.
Qed.

Lemma ltb_asym (a b : F64.float) : F64.ltb a b = true -> F64.ltb b a = false.
Proof.
  intros H. destruct (F64.ltb b a) eqn:E; [|reflexivity].
  apply ltb_key in H. apply ltb_key in E.
  destruct H as (_ & _ & H), E as (_ & _ & E). unfold lt3 in *.
  destruct (key a) as [[a1 a2] a3], (key b) as [[b1 b2] b3]. lia.
Qed.

Lemma ascending_above (l : list F64.float) :
  forall x, ascending (x :: l) = true -> forall y, In y l -> F64.ltb x y = true.
Proof.
  induction l as [|z l IH]; intros x H y Hy; [contradiction|].
  simpl in H. apply andb_true_iff in H. destruct H as [Hxz Hr].
  destruct Hy as [<-|Hy]; [exact Hxz|].
  eapply ltb_trans; [exact Hxz|]. apply IH; assumption.
Qed.

Lemma py_min_below (l : list F64.float) (x : F64.float) :
  (forall y, In y l -> F64.ltb x y = true) -> py_min x l = x.
Proof.
  unfold py_min. induction l as [|z l IH]; intros H; simpl; [reflexivity|].
  rewrite (ltb_asym x z) by (apply H; left; reflexivity).
  apply IH. intros y Hy. apply H. right. exact Hy.
Qed.

Lemma last_default {A : Type} (l : list A) (x d d' : A) :
  last (x :: l) d = last (x :: l) d'.
Proof.
  revert x. induction l as [|y l IH]; intros x; [reflexivity|].
  change (last (y :: l) d = last (y :: l) d'). apply IH.
Qed.

Lemma py_max_ascending (l : list F64.float) :
  forall x, ascending (x :: l) = true -> py_max x l = last (x :: l) x.
Proof.
  unfold py_max. induction l as [|z l IH]; intros x H; [reflexivity|].
  simpl in H. apply andb_true_iff in H. destruct H as [Hxz Hr].
  simpl fold_left. rewrite Hxz, (IH z Hr).
  change (last (x :: z :: l) x) with (last (z :: l) x).
  apply last_default.
Qed.

(** On an ascending header the range line does show the minimum and the
    maximum. *)
Lemma range_line_ascending (freqs : list F64.float) :
  freqs <> [] -> ascending freqs = true ->
  range_line (hd F64.nan freqs) (last freqs F64.nan) = claimed_range_line freqs.
Proof.
  destruct freqs as [|x l]; [contradiction|]. intros _ H.
  unfold claimed_range_line.
  rewrite (py_min_below l x (ascending_above l x H)), (py_max_ascending l x H).
  simpl hd. f_equal. apply last_default.
Qed.

(** [process] looks at nothing of the environment but what the library
    does with a call. *)
Lemma process_env a header lines w w' :
  library_raises w = library_raises w' ->
  process a header lines w = process a header lines w'.
Proof. intros H. unfold process, plot, deliver, call. rewrite H. reflexivity. Qed.

(** The run of the program on a loaded dataset with at least one
    frequency. *)
Lemma main_loaded a w raw freqs ts m time_sec :
  matplotlib_installed w = true ->
  file_text w (csvfile a) = Some raw ->
  loaded (header_of raw) (lines_of raw) freqs ts m time_sec -> freqs <> [] ->
  main a w =
    let r := made w (library_calls a m (hd F64.nan freqs) (last freqs F64.nan)
                       (last time_sec F64.nan) (hd F64.nan time_sec)) in
    (Stdout (reading_line a) :: OpenFile (csvfile a)
     :: (summary_events (List.length m) (List.length freqs)
           (hd F64.nan freqs) (last freqs F64.nan) (last time_sec F64.nan)
         ++ Subplots 12 6 :: fst r
         ++ match snd r with
            | None => map Stdout (confirmation a)
            | Some _ => []
            end)%list,
     match snd r with
     | None => Exit 0
     | Some cls => Uncaught (LibraryError cls)
     end).
Proof.
  intros Hm Hf L Hn.
  rewrite (main_read a w raw Hm Hf), (process_loaded a w _ _ _ _ _ _ L Hn).
  cbv zeta. destruct (snd (made w _)); reflexivity.
Qed.

(** A short line cannot be seen from outside: two files that differ by
    one give the same run. *)
Lemma short_line_invisible a w w' raw raw' pre line post :
  matplotlib_installed w = true -> matplotlib_installed w' = true ->
  library_raises w = library_raises w' ->
  file_text w (csvfile a) = Some raw -> file_text w' (csvfile a) = Some raw' ->
  header_of raw = header_of raw' ->
  lines_of raw = (pre ++ line :: post)%list -> lines_of raw' = (pre ++ post)%list ->
  few_fields line ->
  main a w = main a w'.
Proof.
  intros Hm Hm' Hl Hf Hf' Hh Hl1 Hl2 Hs.
  rewrite (main_read a w raw Hm Hf), (main_read a w' raw' Hm' Hf'), Hh, Hl1, Hl2.
  rewrite (process_drop a _ pre post line Hs), (process_env a _ _ w w' Hl). reflexivity.
Qed.

(** The projections of a run that ends inside the library or reaches the
    end. *)
Lemma extents_made (w : env) (a : args) (m : list (list F64.float))
    (x0 x1 y0 y1 : F64.float) :
  extents (fst (made w (library_calls a m x0 x1 y0 y1))) = [[x0; x1; y0; y1]].
Proof.
  unfold library_calls, delivery_call. destruct (output_path a); simpl;
    repeat match goal with
           | |- context [library_raises w ?e] => destruct (library_raises w e); simpl
           end; reflexivity.
Qed.

Lemma stdout_made (w : env) (a : args) (m : list (list F64.float))
    (x0 x1 y0 y1 : F64.float) :
  stdout (fst (made w (library_calls a m x0 x1 y0 y1))) = [].
Proof.
  unfold library_calls, delivery_call. destruct (output_path a); simpl;
    repeat match goal with
           | |- context [library_raises w ?e] => destruct (library_raises w e); simpl
           end; reflexivity.
Qed.

Lemma extents_app (t t' : list event) : extents (t ++ t') = (extents t ++ extents t')%list.
Proof. apply flat_map_app. Qed.

Lemma stdout_app (t t' : list event) : stdout (t ++ t') = (stdout t ++ stdout t')%list.
Proof. apply flat_map_app. Qed.



Lemma stdout_printed (l : list string) : stdout (map Stdout l) = l.
Proof. induction l as [|x l IH]; [reflexivity|]. simpl. rewrite IH. reflexivity. Qed.

Lemma extents_printed (l : list string) : extents (map Stdout l) = [].
Proof. induction l as [|x l IH]; [reflexivity | exact IH]. Qed.

(** ** What the conversions raise *)

Lemma float_raises (s : string) (e : exn) :
  Builtins.float s = raise e -> e = ValueError.
Proof.
  unfold Builtins.float, raise, ok.
  destruct (Builtins.strip_underscores _ _) as [t|]; [|congruence].
  destruct (Builtins.sign _) as [neg body].
  destruct (if Builtins.starts_number body then _ else _); [discriminate | congruence].
Qed.

Lemma int_raises (s : string) (e : exn) :
  Builtins.int s = raise e -> e = ValueError.
Proof.
  unfold Builtins.int, raise, ok.
  destruct (Builtins.sign _) as [neg body].
  destruct (Builtins.digits_us body 0 0) as [[v n] rest].
  destruct (_ && _); [discriminate | congruence].
Qed.

Lemma map_result_raises {A B : Type} (f : A -> result B) (E : exn) (l : list A) :
  (forall x e, f x = raise e -> e = E) ->
  forall e, map_result f l = raise e -> e = E.
Proof.
  intros Hf. induction l as [|x l IH]; intros e H; simpl in H; [discriminate|].
  destruct (f x) as [e'|y] eqn:Ex; simpl in H.
  - injection H as <-. apply (Hf x e' Ex).
  - destruct (map_result f l) as [e'|ys]; simpl in H; [|discriminate].
    injection H as <-. apply IH. reflexivity.
Qed.

Lemma map_result_fails {A B : Type} (f : A -> result B) (l : list A) (x : A) :
  In x l -> (forall y, f x <> ok y) -> forall ys, map_result f l <> ok ys.
Proof.
  induction l as [|z l IH]; intros Hin Hx ys H; [contradiction|].
  simpl in H.
  destruct (f z) as [e|y] eqn:Ez; simpl in H; [discriminate|].
  destruct (map_result f l) as [e|ys'] eqn:El; simpl in H; [discriminate|].
  destruct Hin as [->|Hin].
  - apply (Hx y Ez).
  - apply (IH Hin Hx ys' eq_refl).
Qed.

Lemma map_result_each {A B : Type} (f : A -> result B) (l : list A) (l' : list B) :
  map_result f l = ok l' -> Forall2 (fun x y => f x = ok y) l l'.
Proof.
  revert l'. induction l as [|x l IH]; intros l' H; simpl in H.
  - injection H as <-. constructor.
  - destruct (f x) as [e|y] eqn:Ex; simpl in H; [discriminate|].
    destruct (map_result f l) as [e|ys]; simpl in H; [discriminate|].
    injection H as <-. constructor; [exact Ex | apply IH; reflexivity].
Qed.

Lemma parse_header_raises (header : string) (e : exn) :
  parse_header header = raise e -> e = ValueError.
Proof. unfold parse_header. apply map_result_raises, float_raises. Qed.

Lemma row_of_raises (line : string) (e : exn) :
  row_of line = raise e -> e = ValueError.
Proof.
  unfold row_of. intros H.
  destruct (Builtins.int _) as [e'|t] eqn:Ei; simpl in H.
  - injection H as <-. apply (int_raises _ _ Ei).
  - destruct (map_result Builtins.float _) as [e'|row] eqn:Ef; simpl in H; [|discriminate].
    injection H as <-. apply (map_result_raises _ _ _ float_raises _ Ef).
Qed.

(** ** The row loop is a filter followed by a map *)

Lemma parse_rows_filter_map (lines : list string) :
  forall ts0 rs0,
    parse_rows lines ts0 rs0 =
    rbind (map_result row_of (filter kept lines))
          (fun rows => ok ((ts0 ++ map fst rows)%list, (rs0 ++ map snd rows)%list)).
Proof.
  induction lines as [|line lines IH]; intros ts0 rs0; simpl.
  - rewrite !app_nil_r. reflexivity.
  - unfold kept at 1.
    destruct (Nat.ltb (List.length (Text.split "," (Text.strip line))) 2) eqn:Ek;
      simpl; [apply IH|].
    unfold row_of at 1.
    destruct (Builtins.int _) as [e|t]; simpl; [reflexivity|].
    destruct (map_result Builtins.float _) as [e|row]; simpl; [reflexivity|].
    rewrite IH.
    destruct (map_result row_of (filter kept lines)) as [e|rows]; simpl; [reflexivity|].
    rewrite <- !app_assoc. reflexivity.
Qed.

Lemma parse_rows_raises (lines : list string) (ts0 : list Z)
    (rs0 : list (list F64.float)) (e : exn) :
  parse_rows lines ts0 rs0 = raise e -> e = ValueError.
Proof.
  rewrite parse_rows_filter_map. intros H.
  destruct (map_result row_of (filter kept lines)) as [e'|rows] eqn:Er; simpl in H;
    [|discriminate].
  injection H as <-. apply (map_result_raises _ _ _ row_of_raises _ Er).
Qed.

(** ** Every run, case by case *)

Lemma int_truediv_raises (y : F64.float) (z : Z) (e : exn) :
  Numpy.int_truediv z y = raise e -> e = OverflowError.
Proof.
  unfold Numpy.int_truediv, raise, ok.
  destruct (F64.of_Z z); intros H; try discriminate. congruence.
Qed.

Lemma relative_seconds_raises (ts : list Z) (e : exn) :
  ts <> [] ->
  Numpy.relative_seconds (Numpy.array_of_ints ts) = raise e ->
  e = OverflowError /\ Numpy.common_dtype ts = Numpy.Object.
Proof.
  intros Hn. unfold Numpy.array_of_ints, Numpy.relative_seconds.
  destruct ts as [|t0 ts]; [contradiction|].
  destruct (Numpy.common_dtype (t0 :: ts)) eqn:Ed.
  - rewrite (py_index_hd _ 0) by discriminate. discriminate.
  - rewrite (py_index_hd _ 0) by discriminate. discriminate.
  - simpl map. rewrite (py_index_hd _ F64.nan) by discriminate. discriminate.
  - rewrite (py_index_hd _ 0) by discriminate. cbv [rbind ok hd]. intros H.
    split; [|reflexivity].
    apply (map_result_raises (fun t => Numpy.int_truediv (t - t0) F64.thousand)
             OverflowError (t0 :: ts)); [|exact H].
    intros x e'. apply int_truediv_raises.
Qed.

Lemma array2d_raises (m : list (list F64.float)) (e : exn) :
  Numpy.array2d m = raise e -> e = ValueError.
Proof.
  unfold Numpy.array2d, raise, ok. destruct m as [|r m]; [discriminate|].
  destruct (forallb _ _); [discriminate | congruence].
Qed.

Lemma process_cases (a : args) (w : env) (header : string) (lines : list string) :
  process_case a w header lines
    (fst (process a header lines w)) (snd (process a header lines w)).
Proof.
  destruct (parse_header header) as [e|freqs] eqn:Hh.
  { pose proof (parse_header_raises _ _ Hh) as ->.
    apply BadHeader; [exact Hh | |]; unfold process; rewrite Hh; reflexivity. }
  destruct (parse_rows lines [] []) as [e|[ts m]] eqn:Hr.
  { pose proof (parse_rows_raises _ _ _ _ Hr) as ->.
    apply (BadRow _ _ _ _ _ _ freqs); [exact Hh | exact Hr | |];
      unfold process; rewrite Hh, bind_lift_ok, Hr; reflexivity. }
  destruct m as [|r0 m].
  { apply (NoRows _ _ _ _ _ _ freqs ts); [exact Hh | exact Hr | |];
      unfold process; rewrite Hh, bind_lift_ok, Hr, bind_lift_ok; reflexivity. }
  destruct (Numpy.array2d (r0 :: m)) as [e|m'] eqn:Hm.
  { pose proof (array2d_raises _ _ Hm) as ->.
    apply (Ragged _ _ _ _ _ _ freqs ts (r0 :: m)); try assumption; try discriminate;
      unfold process; rewrite Hh, bind_lift_ok, Hr, bind_lift_ok, Hm; reflexivity. }
  pose proof (array2d_same _ _ Hm) as ->.
  assert (Hts : ts <> []).
  { pose proof (parse_rows_parallel _ _ _ _ _ Hr eq_refl) as L.
    destruct ts; [discriminate L | discriminate]. }
  destruct (Numpy.relative_seconds (Numpy.array_of_ints ts)) as [e|time_sec] eqn:Ht.
  { destruct (relative_seconds_raises ts e Hts Ht) as [-> Hd].
    apply (TooLarge _ _ _ _ _ _ freqs ts (r0 :: m)); try assumption; try discriminate;
      unfold process; rewrite Hh, bind_lift_ok, Hr, bind_lift_ok, Hm, bind_lift_ok, Ht;
      reflexivity. }
  assert (L : loaded header lines freqs ts (r0 :: m) time_sec)
    by (constructor; auto; discriminate).
  destruct freqs as [|f freqs].
  - destruct (loaded_time_length _ _ _ _ _ _ L) as [_ Ls].
    apply (NoFrequencies _ _ _ _ _ _ ts (r0 :: m) time_sec); [exact L | |];
      unfold process; rewrite Hh, bind_lift_ok, Hr, bind_lift_ok, Hm, bind_lift_ok, Ht,
        bind_lift_ok; unfold summary;
      rewrite size_array_of_ints, py_index_empty, Ls; reflexivity.
  - assert (Hn : f :: freqs <> []) by discriminate.
    destruct (calls_cases w
                (library_calls a (r0 :: m) (hd F64.nan (f :: freqs))
                   (last (f :: freqs) F64.nan) (last time_sec F64.nan)
                   (hd F64.nan time_sec)))
      as [Hq | (pre & e & post & cls & Hc & Hp & He)].
    + apply (Complete _ _ _ _ _ _ (f :: freqs) ts (r0 :: m) time_sec);
        [exact L | exact Hn | exact Hq | |];
        rewrite (process_complete a w _ _ _ _ _ _ L Hn Hq); reflexivity.
    + apply (LibraryRaised _ _ _ _ _ _ (f :: freqs) ts (r0 :: m) time_sec pre e post cls);
        [exact L | exact Hn | exact Hc | exact Hp | exact He | |];
        rewrite (process_raised a w _ _ _ _ _ _ pre e post cls L Hn Hc Hp He);
        reflexivity.
Qed.

Lemma main_cases (a : args) (w : env) :
  main_case a w (fst (main a w)) (snd (main a w)).
Proof.
  destruct (matplotlib_installed w) eqn:Hm.
  - destruct (file_text w (csvfile a)) as [raw|] eqn:Hf.
    + apply (Processed _ _ _ _ raw _ _ Hm Hf (process_cases a w _ _));
        rewrite (main_read a w raw Hm Hf); reflexivity.
    + apply NoFile; try assumption; rewrite (main_no_file a w Hm Hf); reflexivity.
  - apply NoMatplotlib; try assumption; rewrite (main_no_matplotlib a w Hm); reflexivity.
Qed.

Lemma main_run (a : args) (w : env) (t : list event) (o : outcome) :
  main a w = (t, o) -> main_case a w t o.
Proof. intros H. pose proof (main_cases a w) as C. rewrite H in C. exact C. Qed.


(** ** Delivery: [-o] or the window *)







(** The calls into the library print nothing and open nothing. *)
Lemma calls_plotting a m x0 x1 y0 y1 (pre post : list event) (e : event) :
  library_calls a m x0 x1 y0 y1 = (pre ++ e :: post)%list ->
  forallb is_image_event (pre ++ [e]) = true.
Proof.
  unfold library_calls, plot_events, delivery_call. simpl tl. simpl app. intros H.
  do 7 (destruct pre as [|? pre];
        [injection H as <- <-; try reflexivity; destruct (output_path a); reflexivity|
         injection H as <- H]).
  destruct pre; discriminate H.
Qed.

Lemma plotting_silent (t : list event) :
  forallb is_image_event t = true -> opened t = [] /\ stdout t = [] /\ stderr t = [].
Proof.
  induction t as [|e t IH]; simpl; [auto|].
  intros H. apply andb_true_iff in H. destruct H as [He Ht].
  destruct (IH Ht) as (I1 & I2 & I3).
  destruct e; simpl in *; try discriminate; auto.
Qed.






(** ** Text *)

Lemma split_length (sep : ascii) (s : string) :
  List.length (Text.split sep s) = S (count_char sep s).
Proof.
  induction s as [|c r IH]; simpl; [reflexivity|].
  destruct (Ascii.eqb c sep); simpl.
  - rewrite IH. reflexivity.
  - destruct (Text.split sep r) as [|h t]; simpl in *; [discriminate IH | exact IH].
Qed.

Lemma split_label (sep : ascii) (label rest : string) :
  count_char sep label = 0%nat ->
  Text.split sep (label ++ String sep rest) = label :: Text.split sep rest.
Proof.
  induction label as [|c l IH]; intros H.
  - change (EmptyString ++ String sep rest) with (String sep rest).
    simpl. rewrite Ascii.eqb_refl. reflexivity.
  - change (String c l ++ String sep rest) with (String c (l ++ String sep rest)).
    simpl in H. simpl.
    destruct (Ascii.eqb c sep); [discriminate H|].
    rewrite (IH H). reflexivity.
Qed.

(** ** The claims *)

(** C1. The CSV with header [t,1.0,2.0,3.0] and rows [0,-50,-60,-70] and
    [1000,-55,-65,-75] parses to the frequency axis [1.0, 2.0, 3.0], the
    relative time axis [0.0, 1.0] and the reading matrix
    [[-50,-60,-70],[-55,-65,-75]], in file order. *)
Theorem sample_csv_parsed :
  let rows := [map F64.of_Z [-50; -60; -70]; map F64.of_Z [-55; -65; -75]] in
  read_csv (sample_env true sample_csv) "spectrum.csv" =
    ([OpenFile "spectrum.csv"], inr (header_of sample_csv, lines_of sample_csv)) /\
  parse_header (header_of sample_csv) = ok (map F64.of_Z [1; 2; 3]) /\
  parse_rows (lines_of sample_csv) [] [] = ok ([0; 1000], rows) /\
  Numpy.array2d rows = ok rows /\
  Numpy.relative_seconds (Numpy.array_of_ints [0; 1000]) = ok [F64.zero false; F64.of_Z 1].
Proof. repeat split; vm_compute; reflexivity. Qed.

(** The whole run on that file, saving to [out.png]. *)
Example sample_csv_run :
  main (sample_args (Some "out.png")) (sample_env true sample_csv) =
    ([Stdout "Reading spectrum.csv..."; OpenFile "spectrum.csv";
      Stdout "Loaded 2 frames, 3 frequency bins";
      Stdout "Frequency range: 1.000 - 3.000 MHz";
      Stdout "Duration: 1.00 seconds";
      Subplots 12 6;
      Imshow [map F64.of_Z [-50; -60; -70]; map F64.of_Z [-55; -65; -75]]
             [F64.of_Z 1; F64.of_Z 3; F64.of_Z 1; F64.zero false]
             "viridis" (F64.of_Z (-80)) (F64.of_Z (-30));
      SetXlabel "Frequency (MHz)"; SetYlabel "Time (seconds)";
      SetTitle "RF Spectrogram - spectrum.csv"; Colorbar "RSSI (dBm)";
      TightLayout; Savefig "out.png" 150; Stdout "Saved to out.png"],
     Exit 0).
Proof. vm_compute. reflexivity. Qed.

(** C2. A data line with fewer than two comma-separated fields is
    skipped: nothing is appended for it, nothing is printed for it, and
    the lines after it are parsed as if it were not there. *)
Theorem short_line_skipped (a : args) (header line : string)
    (pre post : list string) (ts : list Z) (rs : list (list F64.float)) :
  few_fields line ->
  parse_rows (line :: post) ts rs = parse_rows post ts rs /\
  parse_rows (pre ++ line :: post) ts rs = parse_rows (pre ++ post) ts rs /\
  process a header (pre ++ line :: post) = process a header (pre ++ post).
Proof.
  intros H. split; [apply parse_rows_skip, H|].
  split; [apply parse_rows_drop, H | apply process_drop, H].
Qed.

Lemma short_line_skipped_witness :
  few_fields "# scan restarted" /\
  process (sample_args None) "t,433.92"
    (["1700000000000,-71.5"] ++ "# scan restarted" :: ["1700000000250,-70"]) =
  process (sample_args None) "t,433.92"
    (["1700000000000,-71.5"] ++ ["1700000000250,-70"]).
Proof.
  split.
  - unfold few_fields. vm_compute. lia.
  - apply (short_line_skipped (sample_args None) "t,433.92" "# scan restarted"
             ["1700000000000,-71.5"] ["1700000000250,-70"] [] []).
    unfold few_fields. vm_compute. lia.
Defined.

(** C3. When the row loop ends without a single row, the script prints an
    error on standard error and exits with code 1; nothing is drawn,
    saved or shown. *)
Theorem no_rows_exit_1 (a : args) (w : env) (raw : string)
    (freqs : list F64.float) (ts : list Z) :
  matplotlib_installed w = true ->
  file_text w (csvfile a) = Some raw ->
  parse_header (header_of raw) = ok freqs ->
  parse_rows (lines_of raw) [] [] = ok (ts, []) ->
  main a w =
    ([Stdout (reading_line a); OpenFile (csvfile a);
      Stderr "Error: No data rows found in CSV"], Exit 1) /\
  stderr (fst (main a w)) = ["Error: No data rows found in CSV"] /\
  exit_status (snd (main a w)) = 1 /\
  no_image (fst (main a w)) /\
  saved (fst (main a w)) = [] /\ shown (fst (main a w)) = 0%nat.
Proof.
  intros Hm Hf Hh Hr.
  assert (E : main a w =
    ([Stdout (reading_line a); OpenFile (csvfile a);
      Stderr "Error: No data rows found in CSV"], Exit 1)).
  { rewrite (main_read a w raw Hm Hf). unfold process.
    rewrite Hh, bind_lift_ok, Hr, bind_lift_ok. reflexivity. }
  rewrite E. repeat split.
Qed.

Lemma no_rows_exit_1_witness :
  main (sample_args (Some "out.png")) (sample_env true ("t,1.0,2.0,3.0" ++ nl)) =
    ([Stdout "Reading spectrum.csv..."; OpenFile "spectrum.csv";
      Stderr "Error: No data rows found in CSV"], Exit 1).
Proof.
  apply (no_rows_exit_1 (sample_args (Some "out.png"))
           (sample_env true ("t,1.0,2.0,3.0" ++ nl)) ("t,1.0,2.0,3.0" ++ nl)
           (map F64.of_Z [1; 2; 3]) []); vm_compute; reflexivity.
Defined.

(** C4, as amended. The first entry of the relative time axis is exactly
    +0.0 whatever the first timestamp is; and when every timestamp and
    every difference from the first fits a signed 64-bit integer, the
    axis is each timestamp minus the first, divided by 1000. *)
Theorem time_axis_relative (ts : list Z) :
  ts <> [] ->
  (forall axis, Numpy.relative_seconds (Numpy.array_of_ints ts) = ok axis ->
                hd_error axis = Some (F64.zero false)) /\
  ((forall t, In t ts ->
      Numpy.in_int64 t = true /\ Numpy.in_int64 (t - hd 0 ts) = true) ->
   Numpy.relative_seconds (Numpy.array_of_ints ts) = ok (claimed_time_axis ts)).
Proof.
  intros Hn. split; [intros axis; apply time_axis_starts_at_zero|].
  intros H.
  unfold Numpy.array_of_ints.
  rewrite (common_dtype_int64 ts Hn) by (intros t Ht; apply (H t Ht)).
  unfold Numpy.relative_seconds. rewrite (py_index_hd _ 0 Hn). simpl.
  unfold claimed_time_axis. f_equal. apply map_ext_in. intros t Ht.
  rewrite wrap_int64_small by (apply (H t Ht)). reflexivity.
Qed.

Lemma time_axis_relative_witness :
  Numpy.relative_seconds (Numpy.array_of_ints [1700000000000; 1700000000250]) =
    ok [F64.zero false; F64.of_decimal false 25 (-2)].
Proof.
  destruct (time_axis_relative [1700000000000; 1700000000250]) as [_ H];
    [discriminate|].
  rewrite H; [vm_compute; reflexivity|].
  intros t [<-|[<-|[]]]; split; reflexivity.
Defined.

(** C4 as stated fails when a difference leaves the signed 64-bit range:
    the subtraction wraps, and a later row gets a negative time. *)
Lemma time_axis_wraps :
  let ts := [- 2 ^ 63; 1] in
  parse_rows ["-9223372036854775808,-50"; "1,-50"] [] [] =
    ok (ts, [[F64.of_Z (-50)]; [F64.of_Z (-50)]]) /\
  Numpy.relative_seconds (Numpy.array_of_ints ts) =
    ok [F64.zero false; F64.div (F64.of_Z (- (2 ^ 63 - 1))) F64.thousand] /\
  claimed_time_axis ts =
    [F64.zero false; F64.div (F64.of_Z (2 ^ 63 + 1)) F64.thousand] /\
  Numpy.relative_seconds (Numpy.array_of_ints ts) <> ok (claimed_time_axis ts).
Proof.
  repeat split; try (vm_compute; reflexivity).
  vm_compute. discriminate.
Qed.

(** C5. Without matplotlib the script prints the error on standard error
    and exits with code 1 before it opens the CSV file. *)
Theorem missing_matplotlib_exits_first (a : args) (w : env) :
  matplotlib_installed w = false ->
  main a w =
    ([Stderr "Error: matplotlib not installed. Install with: pip install matplotlib"],
     Exit 1) /\
  opened (fst (main a w)) = [].
Proof.
  intros H. rewrite (main_no_matplotlib a w H). split; reflexivity.
Qed.

Lemma missing_matplotlib_exits_first_witness :
  opened (fst (main (sample_args None) (sample_env false sample_csv))) = [].
Proof.
  apply (missing_matplotlib_exits_first (sample_args None) (sample_env false sample_csv)).
  reflexivity.
Defined.




(** C7, as amended. On a loaded dataset with at least one frequency the
    standard output of the program is the line that announces the read
    and then exactly three lines: the number of rows and of header
    frequencies, the first and the last header frequency to 3 decimal
    places, and the last relative time to 2 decimal places. Nothing else
    is printed but, in a run that ends with exit code 0, the
    confirmation of a saved image. On a strictly increasing header the
    first and last frequency are the minimum and the maximum. *)
Theorem summary_lines (a : args) (w : env) (raw : string)
    (freqs : list F64.float) (ts : list Z) (m : list (list F64.float))
    (time_sec : list F64.float) :
  matplotlib_installed w = true ->
  file_text w (csvfile a) = Some raw ->
  loaded (header_of raw) (lines_of raw) freqs ts m time_sec -> freqs <> [] ->
  (exists rest,
     stdout (fst (main a w)) =
       (reading_line a ::
        [loaded_line (List.length m) (List.length freqs);
         range_line (hd F64.nan freqs) (last freqs F64.nan);
         duration_line (last time_sec F64.nan)] ++ rest)%list /\
     (snd (main a w) = Exit 0 -> rest = confirmation a) /\
     (snd (main a w) <> Exit 0 -> rest = [])) /\
  (ascending freqs = true ->
   range_line (hd F64.nan freqs) (last freqs F64.nan) = claimed_range_line freqs).
Proof.
  intros Hm Hf L Hn. split; [|apply range_line_ascending, Hn].
  rewrite (main_loaded a w raw _ _ _ _ Hm Hf L Hn). cbv zeta.
  pose proof (stdout_made w a m (hd F64.nan freqs) (last freqs F64.nan)
                (last time_sec F64.nan) (hd F64.nan time_sec)) as Hq.
  destruct (made w _) as [calls [cls|]]; simpl fst in *; simpl snd in *.
  - exists []. split; [|split; [discriminate | reflexivity]].
    unfold summary_events. simpl.
    change (Subplots 12 6 :: (calls ++ [])%list)
      with ([Subplots 12 6] ++ (calls ++ []))%list.
    rewrite !stdout_app, Hq. reflexivity.
  - exists (confirmation a).
    split; [|split; [reflexivity | intros C; contradiction C; reflexivity]].
    unfold summary_events. simpl.
    change (Subplots 12 6 :: (calls ++ map Stdout (confirmation a))%list)
      with ([Subplots 12 6] ++ (calls ++ map Stdout (confirmation a)))%list.
    rewrite !stdout_app, Hq, stdout_printed. reflexivity.
Qed.

Lemma summary_lines_witness :
  stdout (fst (main (sample_args None) (sample_env true unsorted_csv))) =
    ["Reading spectrum.csv..."; "Loaded 1 frames, 3 frequency bins";
     "Frequency range: 3.000 - 2.000 MHz"; "Duration: 0.00 seconds"].
Proof.
  destruct (summary_lines (sample_args None) (sample_env true unsorted_csv) unsorted_csv
              (map F64.of_Z [3; 1; 2]) [0] [map F64.of_Z [-50; -60; -70]]
              [F64.zero false])
    as [(rest & Hs & H0 & _) _].
  - reflexivity.
  - reflexivity.
  - constructor; try (vm_compute; reflexivity). discriminate.
  - discriminate.
  - rewrite Hs, (H0 eq_refl). vm_compute. reflexivity.
Defined.

(** C7 as stated fails when the header is not in ascending order: the
    range line shows the first and the last frequency, not the minimum
    and the maximum. *)
Lemma range_line_is_not_min_max :
  let freqs := map F64.of_Z [3; 1; 2] in
  let t := fst (main (sample_args None) (sample_env true unsorted_csv)) in
  parse_header (header_of unsorted_csv) = ok freqs /\
  claimed_range_line freqs = "Frequency range: 1.000 - 3.000 MHz" /\
  stdout t = ["Reading spectrum.csv..."; "Loaded 1 frames, 3 frequency bins";
              "Frequency range: 3.000 - 2.000 MHz"; "Duration: 0.00 seconds"] /\
  ~ In (claimed_range_line freqs) (stdout t).
Proof.
  vm_compute. repeat split; try reflexivity.
  intros H. repeat (destruct H as [H|H]; [discriminate|]). exact H.
Qed.

(** C8. On a loaded dataset with at least one frequency, the one image
    drawn has the extent [first frequency, last frequency, last relative
    time, first relative time], frequencies in header order. *)
Theorem imshow_extent (a : args) (w : env) (raw : string)
    (freqs : list F64.float) (ts : list Z) (m : list (list F64.float))
    (time_sec : list F64.float) :
  matplotlib_installed w = true ->
  file_text w (csvfile a) = Some raw ->
  loaded (header_of raw) (lines_of raw) freqs ts m time_sec -> freqs <> [] ->
  extents (fst (main a w)) =
    [[hd F64.nan freqs; last freqs F64.nan;
      last time_sec F64.nan; hd F64.nan time_sec]].
Proof.
  intros Hm Hf L Hn. rewrite (main_loaded a w raw _ _ _ _ Hm Hf L Hn). cbv zeta.
  unfold summary_events. simpl fst.
  change (extents ([Stdout (reading_line a); OpenFile (csvfile a);
                    Stdout (loaded_line (List.length m) (List.length freqs));
                    Stdout (range_line (hd F64.nan freqs) (last freqs F64.nan));
                    Stdout (duration_line (last time_sec F64.nan)); Subplots 12 6]
                   ++ fst (made w (library_calls a m (hd F64.nan freqs)
                                     (last freqs F64.nan) (last time_sec F64.nan)
                                     (hd F64.nan time_sec)))
                   ++ match snd (made w (library_calls a m (hd F64.nan freqs)
                                           (last freqs F64.nan) (last time_sec F64.nan)
                                           (hd F64.nan time_sec))) with
                      | None => map Stdout (confirmation a)
                      | Some _ => []
                      end) = [[hd F64.nan freqs; last freqs F64.nan;
                               last time_sec F64.nan; hd F64.nan time_sec]]).
  rewrite !extents_app, extents_made.
  destruct (snd (made w _)); [|rewrite extents_printed]; reflexivity.
Qed.

Lemma imshow_extent_witness :
  extents (fst (main (sample_args None) (sample_env true sample_csv))) =
    [[F64.of_Z 1; F64.of_Z 3; F64.of_Z 1; F64.zero false]].
Proof.
  apply (imshow_extent (sample_args None) (sample_env true sample_csv) sample_csv
           (map F64.of_Z [1; 2; 3]) [0; 1000]
           [map F64.of_Z [-50; -60; -70]; map F64.of_Z [-55; -65; -75]]
           [F64.zero false; F64.of_Z 1]).
  - reflexivity.
  - reflexivity.
  - constructor; try (vm_compute; reflexivity). discriminate.
  - discriminate.
Defined.

(** C9. On a file of zero bytes the header parse does not fail: the
    frequency list is empty, no row is found, and the script reports the
    empty dataset on standard error and exits with code 1. *)
Theorem empty_file_exit_1 (a : args) (w : env) :
  matplotlib_installed w = true ->
  file_text w (csvfile a) = Some EmptyString ->
  parse_header (header_of EmptyString) = ok [] /\
  parse_rows (lines_of EmptyString) [] [] = ok ([], []) /\
  main a w =
    ([Stdout (reading_line a); OpenFile (csvfile a);
      Stderr "Error: No data rows found in CSV"], Exit 1).
Proof.
  intros Hm Hf. split; [reflexivity|]. split; [reflexivity|].
  rewrite (main_read a w EmptyString Hm Hf). reflexivity.
Qed.

Lemma empty_file_exit_1_witness :
  main (sample_args None) (sample_env true EmptyString) =
    ([Stdout "Reading spectrum.csv..."; OpenFile "spectrum.csv";
      Stderr "Error: No data rows found in CSV"], Exit 1).
Proof.
  apply (empty_file_exit_1 (sample_args None) (sample_env true EmptyString));
    reflexivity.
Defined.



(** * Further properties *)

(** ** The extras *)

(** X1. When no text can be read from the CSV file, because it cannot be
    opened ([OSError]) or because its bytes do not decode
    ([UnicodeDecodeError]), the script has already printed the line that
    announces the read; it stops on that uncaught exception with status
    1, and nothing is parsed or drawn. *)
Theorem unreadable_file_stops (a : args) (w : env) :
  matplotlib_installed w = true ->
  file_text w (csvfile a) = None ->
  main a w = ([Stdout (reading_line a); OpenFile (csvfile a)],
              Uncaught (read_error (file_failure w (csvfile a)))) /\
  (file_failure w (csvfile a) = NotOpened -> snd (main a w) = Uncaught OSError) /\
  (file_failure w (csvfile a) = NotDecoded ->
   snd (main a w) = Uncaught UnicodeDecodeError) /\
  exit_status (snd (main a w)) = 1 /\
  no_image (fst (main a w)).
Proof.
  intros Hm Hf. rewrite (main_no_file a w Hm Hf).
  split; [reflexivity|]. split; [intros ->; reflexivity|].
  split; [intros ->; reflexivity|]. split; reflexivity.
Qed.

Lemma unreadable_file_stops_witness :
  main {| csvfile := "missing.csv"; output := None; cmap := "viridis";
          vmin := F64.of_Z (-80); vmax := F64.of_Z (-30) |}
       (sample_env true sample_csv) =
    ([Stdout "Reading missing.csv..."; OpenFile "missing.csv"], Uncaught OSError).
Proof.
  apply (unreadable_file_stops
           {| csvfile := "missing.csv"; output := None; cmap := "viridis";
              vmin := F64.of_Z (-80); vmax := F64.of_Z (-30) |}
           (sample_env true sample_csv)); reflexivity.
Defined.

(** The same on a file that is not text. *)
Example binary_file_run :
  main (sample_args None) binary_file_env =
    ([Stdout "Reading spectrum.csv..."; OpenFile "spectrum.csv"],
     Uncaught UnicodeDecodeError).
Proof. reflexivity. Qed.


(** X3. The script opens no file but the CSV named on the command line,
    and that one at most once: once when matplotlib is there, never when
    it is missing. The first line on standard output is then the one
    that announces the read. *)
Theorem opens_only_the_csv (a : args) (w : env) :
  opened (fst (main a w)) = (if matplotlib_installed w then [csvfile a] else []) /\
  hd_error (stdout (fst (main a w))) =
    (if matplotlib_installed w then Some (reading_line a) else None).
Proof.
  destruct (main_cases a w) as [Hm -> _ | Hm Hf -> _ | raw t' r Hm Hf C -> _];
    rewrite Hm; [split; reflexivity | split; reflexivity |].
  split; [|reflexivity].
  destruct C as [H -> -> | f H1 H2 -> -> | f ts H1 H2 -> -> | f ts m H1 H2 H3 H4 -> ->
                | f ts m H1 H2 H3 H4 H5 H6 -> -> | ts m time L -> -> | f ts m time L Hn Hq -> ->
                | f ts m time pre e post cls L Hn Hc Hp He -> ->];
    try reflexivity.
  - unfold deliver_events. destruct (output_path a); reflexivity.
  - destruct (plotting_silent _ (calls_plotting _ _ _ _ _ _ _ _ _ Hc)) as [Ho _].
    unfold summary_events. simpl. rewrite Ho. reflexivity.
Qed.

Lemma process_value_error (a : args) (w : env) (header : string) (lines : list string) :
  (forall freqs, parse_header header <> ok freqs) \/
  (forall r, parse_rows lines [] [] <> ok r) ->
  process a header lines w = ([], inl (Uncaught ValueError)).
Proof.
  intros H.
  pose proof (process_cases a w header lines) as C.
  destruct (process a header lines w) as [t r]. simpl in C.
  destruct C as [H0 -> -> | f H1 H2 -> -> | f ts H1 H2 -> -> | f ts m H1 H2 H3 H4 -> ->
                | f ts m H1 H2 H3 H4 H5 H6 -> -> | ts m time L -> -> | f ts m time L Hn Hq -> ->
                | f ts m time pre e post cls L Hn Hc Hp He -> ->];
    try reflexivity;
    try (destruct H as [H|H]; [elim (H _ H1) | elim (H _ H2)]);
    destruct L as [L1 L2 _ _ _];
    (destruct H as [H|H]; [elim (H _ L1) | elim (H _ L2)]).
Qed.

(** X4. A header field after the label that [float()] rejects stops the
    run with an uncaught [ValueError] right after the file is read,
    whatever the data lines are: nothing more is printed, nothing is
    drawn. *)
Theorem bad_header_field_stops (a : args) (w : env) (raw field : string) :
  matplotlib_installed w = true ->
  file_text w (csvfile a) = Some raw ->
  In field (tl (Text.split "," (header_of raw))) ->
  (forall x, Builtins.float field <> ok x) ->
  main a w = ([Stdout (reading_line a); OpenFile (csvfile a)], Uncaught ValueError).
Proof.
  intros Hm Hf Hin Hbad.
  rewrite (main_read a w raw Hm Hf), process_value_error; [reflexivity|].
  left. intros freqs. unfold parse_header.
  apply (map_result_fails Builtins.float _ field Hin Hbad).
Qed.

Lemma bad_header_field_stops_witness :
  main (sample_args None)
       (sample_env true ("t,433.92,n/a" ++ nl ++ "0,-50,-60" ++ nl)) =
    ([Stdout "Reading spectrum.csv..."; OpenFile "spectrum.csv"], Uncaught ValueError).
Proof.
  apply (bad_header_field_stops (sample_args None)
           (sample_env true ("t,433.92,n/a" ++ nl ++ "0,-50,-60" ++ nl))
           ("t,433.92,n/a" ++ nl ++ "0,-50,-60" ++ nl) "n/a").
  - reflexivity.
  - reflexivity.
  - vm_compute. right. left. reflexivity.
  - intros x. vm_compute. discriminate.
Defined.

Lemma bad_row_fails (lines : list string) (line : string) :
  In line lines -> kept line = true -> (forall r, row_of line <> ok r) ->
  forall r, parse_rows lines [] [] <> ok r.
Proof.
  intros Hin Hk Hbad r H. rewrite parse_rows_filter_map in H.
  destruct (map_result row_of (filter kept lines)) as [e|rows] eqn:E; [discriminate|].
  apply (map_result_fails row_of (filter kept lines) line) with (ys := rows);
    [apply filter_In; split; assumption | exact Hbad | exact E].
Qed.

(** X5. A data line with two fields or more whose timestamp [int()]
    rejects, or one of whose readings [float()] rejects, stops the run
    with an uncaught [ValueError] wherever it stands in the file: the
    rows before it are not reported and nothing is drawn. *)
Theorem bad_row_stops (a : args) (w : env) (raw line : string) :
  matplotlib_installed w = true ->
  file_text w (csvfile a) = Some raw ->
  In line (lines_of raw) -> kept line = true ->
  (forall r, row_of line <> ok r) ->
  main a w = ([Stdout (reading_line a); OpenFile (csvfile a)], Uncaught ValueError).
Proof.
  intros Hm Hf Hin Hk Hbad.
  rewrite (main_read a w raw Hm Hf), process_value_error; [reflexivity|].
  right. apply (bad_row_fails _ line Hin Hk Hbad).
Qed.

Lemma bad_row_stops_witness :
  main (sample_args None)
       (sample_env true (sample_csv ++ "2000.5,-50,-60,-70" ++ nl)) =
    ([Stdout "Reading spectrum.csv..."; OpenFile "spectrum.csv"], Uncaught ValueError).
Proof.
  apply (bad_row_stops (sample_args None)
           (sample_env true (sample_csv ++ "2000.5,-50,-60,-70" ++ nl))
           (sample_csv ++ "2000.5,-50,-60,-70" ++ nl) ("2000.5,-50,-60,-70" ++ nl)).
  - reflexivity.
  - reflexivity.
  - vm_compute. right. right. left. reflexivity.
  - reflexivity.
  - intros r. vm_compute. discriminate.
Defined.

Lemma empty_field_fails (line : string) :
  In EmptyString (Text.split "," (Text.strip line)) ->
  forall r, row_of line <> ok r.
Proof.
  unfold row_of. intros Hin r H.
  destruct (Text.split "," (Text.strip line)) as [|p ps]; [contradiction|].
  simpl hd in H. simpl tl in H.
  destruct Hin as [->|Hin]; [discriminate H|].
  destruct (Builtins.int p) as [e|t]; simpl in H; [discriminate|].
  destruct (map_result Builtins.float ps) as [e|row] eqn:E; simpl in H; [discriminate|].
  apply (map_result_fails Builtins.float ps EmptyString Hin) with (ys := row);
    [intros y; discriminate | exact E].
Qed.

(** X6. A data line that has a comma and an empty field (a leading, a
    doubled or a trailing comma) is not skipped and not padded: it stops
    the run with an uncaught [ValueError]. *)
Theorem empty_field_stops (a : args) (w : env) (raw line : string) :
  matplotlib_installed w = true ->
  file_text w (csvfile a) = Some raw ->
  In line (lines_of raw) -> kept line = true ->
  In EmptyString (Text.split "," (Text.strip line)) ->
  main a w = ([Stdout (reading_line a); OpenFile (csvfile a)], Uncaught ValueError).
Proof.
  intros Hm Hf Hin Hk He.
  rewrite (main_read a w raw Hm Hf), process_value_error; [reflexivity|].
  right. apply (bad_row_fails _ line Hin Hk (empty_field_fails line He)).
Qed.

Lemma empty_field_stops_witness :
  main (sample_args None)
       (sample_env true ("t,1.0,2.0" ++ nl ++ "0,-50," ++ nl)) =
    ([Stdout "Reading spectrum.csv..."; OpenFile "spectrum.csv"], Uncaught ValueError).
Proof.
  apply (empty_field_stops (sample_args None)
           (sample_env true ("t,1.0,2.0" ++ nl ++ "0,-50," ++ nl))
           ("t,1.0,2.0" ++ nl ++ "0,-50," ++ nl) ("0,-50," ++ nl)).
  - reflexivity.
  - reflexivity.
  - vm_compute. left. reflexivity.
  - reflexivity.
  - vm_compute. right. right. left. reflexivity.
Defined.

(** X7. A data line is skipped exactly when, once stripped, it has no
    comma; in particular blank lines are skipped, and a line with a
    comma never is. *)
Theorem skipped_iff_no_comma (line : string) :
  (few_fields line <-> count_char "," (Text.strip line) = 0%nat) /\
  (kept line = true <-> (0 < count_char "," (Text.strip line))%nat).
Proof.
  unfold few_fields, kept. rewrite split_length. split.
  - lia.
  - rewrite negb_true_iff, Nat.ltb_ge. lia.
Qed.

(** X8. The row loop is a filter followed by a map: the lines that are
    kept are converted in file order, each to its timestamp and its
    readings, and the first one that fails to convert fails the loop. *)
Theorem row_loop_is_filter_map (lines : list string) :
  parse_rows lines [] [] =
    rbind (map_result row_of (filter kept lines))
          (fun rows => ok (map fst rows, map snd rows)).
Proof. apply (parse_rows_filter_map lines [] []). Qed.

Lemma parse_rows_rows (lines : list string) (ts : list Z) (m : list (list F64.float)) :
  parse_rows lines [] [] = ok (ts, m) ->
  exists rows, map_result row_of (filter kept lines) = ok rows /\
               ts = map fst rows /\ m = map snd rows.
Proof.
  rewrite parse_rows_filter_map. intros H.
  destruct (map_result row_of (filter kept lines)) as [e|rows]; [discriminate|].
  exists rows. simpl in H. unfold ok in H. injection H as <- <-. auto.
Qed.

Lemma row_count_aux (lines : list string) (ts : list Z) (m : list (list F64.float)) :
  parse_rows lines [] [] = ok (ts, m) ->
  List.length m = List.length (filter kept lines) /\
  List.length ts = List.length (filter kept lines).
Proof.
  intros H. destruct (parse_rows_rows _ _ _ H) as (rows & E & -> & ->).
  rewrite !length_map. apply map_result_length in E. auto.
Qed.

(** X9. When the loop succeeds, the number of rows, which is the number
    of frames the script reports, is the number of data lines that have
    a comma. *)
Theorem row_count (lines : list string) (ts : list Z) (m : list (list F64.float)) :
  parse_rows lines [] [] = ok (ts, m) ->
  List.length m = List.length (filter kept lines) /\
  List.length ts = List.length (filter kept lines).
Proof.
  apply row_count_aux.
Qed.

Lemma row_count_witness :
  List.length [map F64.of_Z [-50; -60; -70]; map F64.of_Z [-55; -65; -75]] =
  List.length (filter kept (lines_of (sample_csv ++ nl ++ "# end" ++ nl))).
Proof.
  apply (row_count (lines_of (sample_csv ++ nl ++ "# end" ++ nl)) [0; 1000]
           [map F64.of_Z [-50; -60; -70]; map F64.of_Z [-55; -65; -75]]).
  vm_compute. reflexivity.
Defined.

(** X10. When the header parses, the number of frequency bins is the
    number of commas in the header: the label before the first comma is
    not counted and not parsed. *)
Theorem header_bins (header : string) (freqs : list F64.float) :
  parse_header header = ok freqs ->
  List.length freqs = count_char "," header.
Proof.
  unfold parse_header. intros H. apply map_result_length in H. rewrite H.
  pose proof (split_length "," header) as L.
  destruct (Text.split "," header); simpl in *; [discriminate L | lia].
Qed.

Lemma header_bins_witness :
  List.length (map F64.of_Z [1; 2; 3]) = count_char "," "t,1.0,2.0,3.0".
Proof.
  apply (header_bins "t,1.0,2.0,3.0" (map F64.of_Z [1; 2; 3])).
  vm_compute. reflexivity.
Defined.

(** X11. The label in the first column of the header is never looked at:
    whatever text without a comma stands there, the frequencies are the
    fields after the first comma. *)
Theorem header_label_ignored (label rest : string) :
  count_char "," label = 0%nat ->
  parse_header (label ++ String "," rest) =
    map_result Builtins.float (Text.split "," rest).
Proof.
  intros H. unfold parse_header. rewrite (split_label "," label rest H). reflexivity.
Qed.

Lemma header_label_ignored_witness :
  parse_header ("timestamp_ms" ++ String "," "433.92,868.35") =
    map_result Builtins.float (Text.split "," "433.92,868.35").
Proof. apply (header_label_ignored "timestamp_ms" "433.92,868.35"). reflexivity. Defined.

Lemma skipped_iff_no_comma_aux (line : string) :
  (few_fields line <-> count_char "," (Text.strip line) = 0%nat) /\
  (kept line = true -> (0 < count_char "," (Text.strip line))%nat).
Proof.
  unfold few_fields, kept. rewrite split_length. split; [lia|].
  rewrite negb_true_iff, Nat.ltb_ge. lia.
Qed.

Lemma row_of_length (line : string) (t : Z) (row : list F64.float) :
  row_of line = ok (t, row) ->
  List.length row = count_char "," (Text.strip line).
Proof.
  unfold row_of. intros H.
  destruct (Builtins.int _) as [e|t']; simpl in H; [discriminate|].
  destruct (map_result Builtins.float _) as [e|row'] eqn:E; simpl in H; [discriminate|].
  unfold ok in H. injection H as _ <-.
  apply map_result_length in E. rewrite E.
  pose proof (split_length "," (Text.strip line)) as L.
  destruct (Text.split "," (Text.strip line)); simpl in *; [discriminate L | lia].
Qed.

Lemma rows_have_readings (lines : list string) (ts : list Z)
    (m : list (list F64.float)) :
  parse_rows lines [] [] = ok (ts, m) ->
  Forall (fun r => (0 < List.length r)%nat) m.
Proof.
  intros H. destruct (parse_rows_rows _ _ _ H) as (rows & E & _ & ->).
  apply map_result_each in E.
  assert (K : Forall (fun l => kept l = true) (filter kept lines))
    by (apply Forall_forall; intros l Hl; apply filter_In in Hl; apply Hl).
  clear H. revert E K. generalize (filter kept lines) as ls.
  intros ls E. induction E as [|line [t row] ls rs Hrow E IH]; intros K; simpl;
    constructor.
  - rewrite (row_of_length line t row Hrow).
    apply (proj2 (skipped_iff_no_comma_aux line)).
    inversion K; assumption.
  - apply IH. inversion K; assumption.
Qed.

(** X12. In a dataset that loads, timestamps, rows and relative times are
    as many as each other, and the matrix is rectangular with at least
    one column: every row has the same non-zero number of readings. *)
Theorem loaded_dimensions (header : string) (lines : list string)
    (freqs : list F64.float) (ts : list Z) (m : list (list F64.float))
    (time_sec : list F64.float) :
  loaded header lines freqs ts m time_sec ->
  List.length ts = List.length m /\
  List.length time_sec = List.length m /\
  exists n, (0 < n)%nat /\ Forall (fun r => List.length r = n) m.
Proof.
  intros L. destruct (loaded_time_length _ _ _ _ _ _ L) as [Lt Ls].
  split; [exact Ls|]. split; [exact Lt|].
  destruct L as [_ Hr Hs Hm _].
  pose proof (rows_have_readings _ _ _ Hr) as Hp.
  destruct m as [|r m]; [contradiction|].
  exists (List.length r). split; [inversion Hp; assumption|].
  unfold Numpy.array2d in Hm.
  destruct (forallb _ (r :: m)) eqn:F; [|discriminate].
  rewrite forallb_forall in F. apply Forall_forall. intros r' Hr'.
  apply Nat.eqb_eq, F, Hr'.
Qed.

Lemma loaded_dimensions_witness :
  exists n, (0 < n)%nat /\
    Forall (fun r => List.length r = n)
      [map F64.of_Z [-50; -60; -70]; map F64.of_Z [-55; -65; -75]].
Proof.
  apply (loaded_dimensions (header_of sample_csv) (lines_of sample_csv)
           (map F64.of_Z [1; 2; 3]) [0; 1000]
           [map F64.of_Z [-50; -60; -70]; map F64.of_Z [-55; -65; -75]]
           [F64.zero false; F64.of_Z 1]).
  constructor; try (vm_compute; reflexivity). discriminate.
Defined.

Lemma promote_not_object (x y : Numpy.dtype) :
  x <> Numpy.Object -> y <> Numpy.Object -> Numpy.promote x y <> Numpy.Object.
Proof. destruct x, y; simpl; congruence. Qed.

Lemma common_dtype_not_object (l : list Z) :
  (forall t, In t l -> Numpy.dtype_of_int t <> Numpy.Object) ->
  Numpy.common_dtype l <> Numpy.Object.
Proof.
  induction l as [|z l IH]; intros H; [discriminate|].
  destruct l as [|z' l]; [apply H; left; reflexivity|].
  change (Numpy.promote (Numpy.dtype_of_int z) (Numpy.common_dtype (z' :: l))
          <> Numpy.Object).
  apply promote_not_object; [apply H; left; reflexivity|].
  apply IH. intros t Ht. apply H. right. exact Ht.
Qed.

Lemma dtype_of_int_in_range (z : Z) :
  - 2 ^ 63 <= z < 2 ^ 64 -> Numpy.dtype_of_int z <> Numpy.Object.
Proof.
  intros [H1 H2]. unfold Numpy.dtype_of_int, Numpy.in_int64, Numpy.in_uint64.
  destruct (z <? 2 ^ 63) eqn:E.
  - replace (- 2 ^ 63 <=? z) with true by (symmetry; apply Z.leb_le; lia).
    discriminate.
  - rewrite andb_false_r.
    apply Z.ltb_ge in E.
    replace (0 <=? z) with true by (symmetry; apply Z.leb_le; lia).
    replace (z <? 2 ^ 64) with true by (symmetry; apply Z.ltb_lt; lia).
    discriminate.
Qed.

Lemma dtype_of_int_object (z : Z) :
  Numpy.dtype_of_int z = Numpy.Object -> z < - 2 ^ 63 \/ 2 ^ 64 <= z.
Proof.
  intros H.
  destruct (Z.lt_ge_cases z (- 2 ^ 63)) as [A|A]; [left; exact A|].
  destruct (Z.lt_ge_cases z (2 ^ 64)) as [B|B]; [|right; exact B].
  elim (dtype_of_int_in_range z (conj A B) H).
Qed.

Lemma common_dtype_object (l : list Z) :
  Numpy.common_dtype l = Numpy.Object ->
  exists z, In z l /\ Numpy.dtype_of_int z = Numpy.Object.
Proof.
  induction l as [|z l IH]; intros H; [discriminate|].
  destruct (Numpy.dtype_of_int z) eqn:Ez;
    try (destruct l as [|z' l];
         [ change (Numpy.common_dtype [z]) with (Numpy.dtype_of_int z) in H; congruence
         | change (Numpy.promote (Numpy.dtype_of_int z) (Numpy.common_dtype (z' :: l))
                   = Numpy.Object) in H;
           rewrite Ez in H;
           destruct (Numpy.common_dtype (z' :: l)) eqn:El; try discriminate H;
           destruct (IH eq_refl) as (y & Hy & Ey);
           exists y; split; [right; exact Hy | exact Ey] ]).
  exists z. split; [left; reflexivity | exact Ez].
Qed.

(** X13. When every timestamp fits 64 bits, signed or unsigned, the
    relative time axis is always computed, one entry per timestamp: the
    only failure of that step is an integer beyond 64 bits that is too
    large to become a float. *)
Theorem time_axis_computed (ts : list Z) :
  ts <> [] ->
  (forall t, In t ts -> - 2 ^ 63 <= t < 2 ^ 64) ->
  exists axis,
    Numpy.relative_seconds (Numpy.array_of_ints ts) = ok axis /\
    List.length axis = List.length ts.
Proof.
  intros Hn H.
  destruct (Numpy.relative_seconds (Numpy.array_of_ints ts)) as [e|axis] eqn:E.
  - destruct (relative_seconds_raises ts e Hn E) as [_ Hd].
    elim (common_dtype_not_object ts); [|exact Hd].
    intros t Ht. apply dtype_of_int_in_range, H, Ht.
  - exists axis. split; [reflexivity | apply relative_seconds_length, E].
Qed.

Lemma time_axis_computed_witness :
  exists axis,
    Numpy.relative_seconds (Numpy.array_of_ints [2 ^ 63; -5]) = ok axis /\
    List.length axis = 2%nat.
Proof.
  apply (time_axis_computed [2 ^ 63; -5]); [discriminate|].
  intros t [<-|[<-|[]]]; split; vm_compute; congruence.
Defined.

(** X14. A run that ends with status 0 has made each plotting call once,
    in the order of the source: [subplots], [imshow] with the parsed rows
    in file order and the colour map and colour bounds of the command
    line, the two axis labels, the title that names the CSV file, the
    colour bar, [tight_layout], and then the one [savefig] or [show]. *)
Theorem plotting_calls (a : args) (w : env) (t : list event) :
  main a w = (t, Exit 0) ->
  exists raw freqs ts m time_sec,
    file_text w (csvfile a) = Some raw /\
    loaded (header_of raw) (lines_of raw) freqs ts m time_sec /\
    filter is_image_event t =
      [Subplots 12 6;
       Imshow m [hd F64.nan freqs; last freqs F64.nan;
                 last time_sec F64.nan; hd F64.nan time_sec]
              (cmap a) (vmin a) (vmax a);
       SetXlabel "Frequency (MHz)"; SetYlabel "Time (seconds)";
       SetTitle ("RF Spectrogram - " ++ csvfile a);
       Colorbar "RSSI (dBm)"; TightLayout;
       match output_path a with Some p => Savefig p 150 | None => PltShow end].
Proof.
  intros H. apply main_run in H.
  destruct H as [Hm -> Ho | Hm Hf -> Ho | raw t' r Hm Hf C -> Ho]; try discriminate;
    try (destruct (file_failure w (csvfile a)); discriminate).
  destruct C as [H -> -> | f H1 H2 -> -> | f ts H1 H2 -> -> | f ts m H1 H2 H3 H4 -> ->
                | f ts m H1 H2 H3 H4 H5 H6 -> -> | ts m time L -> -> | f ts m time L Hn Hq -> ->
                | f ts m time pre e post cls L Hn Hc Hp He -> ->];
    try discriminate.
  exists raw, f, ts, m, time. split; [exact Hf|]. split; [exact L|].
  unfold deliver_events. destruct (output_path a); reflexivity.
Qed.

Lemma plotting_calls_witness :
  exists raw freqs ts m time_sec,
    file_text (sample_env true sample_csv) "spectrum.csv" = Some raw /\
    loaded (header_of raw) (lines_of raw) freqs ts m time_sec /\
    filter is_image_event (fst (main (sample_args None) (sample_env true sample_csv))) =
      [Subplots 12 6;
       Imshow m [hd F64.nan freqs; last freqs F64.nan;
                 last time_sec F64.nan; hd F64.nan time_sec]
              "viridis" (F64.of_Z (-80)) (F64.of_Z (-30));
       SetXlabel "Frequency (MHz)"; SetYlabel "Time (seconds)";
       SetTitle "RF Spectrogram - spectrum.csv";
       Colorbar "RSSI (dBm)"; TightLayout; PltShow].
Proof.
  apply (plotting_calls (sample_args None) (sample_env true sample_csv)
           (fst (main (sample_args None) (sample_env true sample_csv)))).
  vm_compute. reflexivity.
Defined.

Lemma universal_newlines_crlf (s : string) :
  count_char Text.CR s = 0%nat ->
  Text.universal_newlines (crlf s) = s /\ Text.universal_newlines s = s.
Proof.
  induction s as [|c r IH]; intros H; [split; reflexivity|].
  simpl in H.
  destruct (Ascii.eqb c Text.CR) eqn:Ec; [discriminate H|].
  destruct (IH H) as [I1 I2].
  split.
  - simpl crlf. destruct (Ascii.eqb c Text.LF) eqn:El.
    + apply Ascii.eqb_eq in El. subst c.
      change (Text.universal_newlines (String Text.CR (String Text.LF (crlf r))))
        with (String Text.LF (Text.universal_newlines (crlf r))).
      rewrite I1. reflexivity.
    + simpl. rewrite Ec, I1. reflexivity.
  - simpl. rewrite Ec, I2. reflexivity.
Qed.

Lemma main_with_text (a : args) (w : env) (text : string) :
  main a (with_text w (csvfile a) text) =
    if matplotlib_installed w then
      (Stdout (reading_line a) :: OpenFile (csvfile a)
         :: fst (process a (header_of text) (lines_of text) w),
       finish (snd (process a (header_of text) (lines_of text) w)))
    else
      ([Stderr "Error: matplotlib not installed. Install with: pip install matplotlib"],
       Exit 1).
Proof.
  destruct (matplotlib_installed w) eqn:Hm.
  - rewrite (main_read a (with_text w (csvfile a) text) text);
      [|exact Hm | simpl; rewrite String.eqb_refl; reflexivity].
    rewrite (process_env a _ _ (with_text w (csvfile a) text) w eq_refl). reflexivity.
  - apply main_no_matplotlib. exact Hm.
Qed.

(** X15. Line ends do not matter: a file without carriage returns and the
    same file saved with Windows line ends (CR LF) give the same run. *)
Theorem windows_line_ends (a : args) (w : env) (text : string) :
  count_char Text.CR text = 0%nat ->
  main a (with_text w (csvfile a) (crlf text)) =
  main a (with_text w (csvfile a) text).
Proof.
  intros H. rewrite !main_with_text. unfold header_of, lines_of.
  destruct (universal_newlines_crlf text H) as [-> ->]. reflexivity.
Qed.

Lemma windows_line_ends_witness :
  main (sample_args None)
       (with_text (sample_env true EmptyString) "spectrum.csv" (crlf sample_csv)) =
  main (sample_args None)
       (with_text (sample_env true EmptyString) "spectrum.csv" sample_csv).
Proof.
  apply (windows_line_ends (sample_args None) (sample_env true EmptyString) sample_csv).
  reflexivity.
Defined.

(** X16. The script writes on standard error exactly when it ends through
    [sys.exit(1)], and then one line; a run that ends any other way,
    also on an uncaught exception, has written nothing there itself. *)
Theorem own_stderr_iff_exit_1 (a : args) (w : env) :
  (snd (main a w) = Exit 1 /\ exists msg, stderr (fst (main a w)) = [msg]) \/
  (snd (main a w) <> Exit 1 /\ stderr (fst (main a w)) = []).
Proof.
  destruct (main_cases a w) as [Hm -> -> | Hm Hf -> -> | raw t' r Hm Hf C -> ->].
  - left. split; [reflexivity | eexists; reflexivity].
  - right. split; [discriminate | reflexivity].
  - destruct C as [H -> -> | f H1 H2 -> -> | f ts H1 H2 -> -> | f ts m H1 H2 H3 H4 -> ->
                  | f ts m H1 H2 H3 H4 H5 H6 -> -> | ts m time L -> -> | f ts m time L Hn Hq -> ->
                | f ts m time pre e post cls L Hn Hc Hp He -> ->];
      try (right; split; [discriminate | reflexivity]).
    + left. split; [reflexivity | eexists; reflexivity].
    + right. split; [discriminate|].
      unfold deliver_events. destruct (output_path a); reflexivity.
    + right. split; [discriminate|].
      destruct (plotting_silent _ (calls_plotting _ _ _ _ _ _ _ _ _ Hc)) as (_ & _ & Ho).
      unfold summary_events. simpl. exact Ho.
Qed.

(** X17. An uncaught [IndexError] of the script's own statements has one
    cause only: a header without any frequency field in front of data
    that loads. The run has then printed the frame count with zero
    frequency bins and nothing else after the read. *)
Theorem index_error_only_without_frequencies (a : args) (w : env) (t : list event) :
  main a w = (t, Uncaught IndexError) ->
  exists raw n,
    file_text w (csvfile a) = Some raw /\
    List.length (Text.split "," (header_of raw)) = 1%nat /\
    t = [Stdout (reading_line a); OpenFile (csvfile a); Stdout (loaded_line n 0)].
Proof.
  intros H. apply main_run in H.
  destruct H as [Hm -> Ho | Hm Hf -> Ho | raw t' r Hm Hf C -> Ho]; try discriminate;
    try (destruct (file_failure w (csvfile a)); discriminate).
  destruct C as [H -> -> | f H1 H2 -> -> | f ts H1 H2 -> -> | f ts m H1 H2 H3 H4 -> ->
                | f ts m H1 H2 H3 H4 H5 H6 -> -> | ts m time L -> -> | f ts m time L Hn Hq -> ->
                | f ts m time pre e post cls L Hn Hc Hp He -> ->];
    try discriminate.
  exists raw, (List.length m). split; [exact Hf|]. split; [|reflexivity].
  destruct L as [Hh _ _ _ _]. unfold parse_header in Hh.
  apply map_result_length in Hh.
  pose proof (split_nonempty "," (header_of raw)) as Hs.
  destruct (Text.split "," (header_of raw)) as [|c [|c' cs]];
    [contradiction | reflexivity | discriminate Hh].
Qed.

Lemma index_error_only_without_frequencies_witness :
  exists raw n,
    file_text (sample_env true ("t" ++ nl ++ "5,1" ++ nl)) "spectrum.csv" = Some raw /\
    List.length (Text.split "," (header_of raw)) = 1%nat /\
    fst (main (sample_args None) (sample_env true ("t" ++ nl ++ "5,1" ++ nl))) =
      [Stdout "Reading spectrum.csv..."; OpenFile "spectrum.csv";
       Stdout (loaded_line n 0)].
Proof.
  apply (index_error_only_without_frequencies (sample_args None)
           (sample_env true ("t" ++ nl ++ "5,1" ++ nl))).
  vm_compute. reflexivity.
Defined.

(** X18. An uncaught [OverflowError] of the script's own statements has
    one cause only: a timestamp that does not fit 64 bits. Nothing has
    been printed after the read. *)
Theorem overflow_only_beyond_64_bits (a : args) (w : env) (t : list event) :
  main a w = (t, Uncaught OverflowError) ->
  exists raw ts m z,
    file_text w (csvfile a) = Some raw /\
    parse_rows (lines_of raw) [] [] = ok (ts, m) /\
    In z ts /\ (z < - 2 ^ 63 \/ 2 ^ 64 <= z) /\
    t = [Stdout (reading_line a); OpenFile (csvfile a)].
Proof.
  intros H. apply main_run in H.
  destruct H as [Hm -> Ho | Hm Hf -> Ho | raw t' r Hm Hf C -> Ho]; try discriminate;
    try (destruct (file_failure w (csvfile a)); discriminate).
  destruct C as [H -> -> | f H1 H2 -> -> | f ts H1 H2 -> -> | f ts m H1 H2 H3 H4 -> ->
                | f ts m H1 H2 H3 H4 H5 H6 -> -> | ts m time L -> -> | f ts m time L Hn Hq -> ->
                | f ts m time pre e post cls L Hn Hc Hp He -> ->];
    try discriminate.
  destruct (common_dtype_object ts H6) as (z & Hz & Ez).
  exists raw, ts, m, z. repeat split; auto.
  apply dtype_of_int_object, Ez.
Qed.

Lemma overflow_only_beyond_64_bits_witness :
  exists raw ts m z,
    file_text (sample_env true ("t,1.0" ++ nl ++ "0,-50" ++ nl
                                ++ String "1" (F64.zeros 400) ++ ",-50" ++ nl))
              "spectrum.csv" = Some raw /\
    parse_rows (lines_of raw) [] [] = ok (ts, m) /\
    In z ts /\ (z < - 2 ^ 63 \/ 2 ^ 64 <= z) /\
    fst (main (sample_args None)
           (sample_env true ("t,1.0" ++ nl ++ "0,-50" ++ nl
                             ++ String "1" (F64.zeros 400) ++ ",-50" ++ nl))) =
      [Stdout (reading_line (sample_args None)); OpenFile "spectrum.csv"].
Proof.
  apply (overflow_only_beyond_64_bits (sample_args None)
           (sample_env true ("t,1.0" ++ nl ++ "0,-50" ++ nl
                             ++ String "1" (F64.zeros 400) ++ ",-50" ++ nl))).
  vm_compute. reflexivity.
Defined.

Lemma array2d_ragged (m : list (list F64.float)) :
  (exists r1 r2, In r1 m /\ In r2 m /\ List.length r1 <> List.length r2) <->
  Numpy.array2d m = raise ValueError.
Proof.
  unfold Numpy.array2d, raise, ok. split.
  - intros (r1 & r2 & H1 & H2 & Hd).
    destruct m as [|r m]; [contradiction|].
    destruct (forallb _ (r :: m)) eqn:F; [|reflexivity].
    rewrite forallb_forall in F.
    pose proof (F r1 H1) as E1. pose proof (F r2 H2) as E2.
    apply Nat.eqb_eq in E1. apply Nat.eqb_eq in E2. congruence.
  - destruct m as [|r m]; [discriminate|].
    destruct (forallb _ (r :: m)) eqn:F; [discriminate|]. intros _.
    assert (X : exists r', In r' (r :: m) /\ List.length r' <> List.length r).
    { clear -F. induction (r :: m) as [|x l IH]; [discriminate|].
      simpl in F. destruct (Nat.eqb (List.length x) (List.length r)) eqn:E.
      - destruct (IH F) as (r' & Hr & Hd). exists r'. split; [right; exact Hr | exact Hd].
      - exists x. split; [left; reflexivity | apply Nat.eqb_neq, E]. }
    destruct X as (r' & Hr & Hd).
    exists r', r. split; [exact Hr|]. split; [left; reflexivity | exact Hd].
Qed.

(** X19. Rows that do not all have the same number of readings are not
    padded or cut: when the header and every row parse, two rows of
    different lengths stop the run with an uncaught [ValueError] before
    the summary is printed (numpy 1.24 and later). *)
Theorem ragged_rows_stop (a : args) (w : env) (raw : string)
    (freqs : list F64.float) (ts : list Z) (m : list (list F64.float))
    (r1 r2 : list F64.float) :
  matplotlib_installed w = true ->
  file_text w (csvfile a) = Some raw ->
  parse_header (header_of raw) = ok freqs ->
  parse_rows (lines_of raw) [] [] = ok (ts, m) ->
  In r1 m -> In r2 m -> List.length r1 <> List.length r2 ->
  main a w = ([Stdout (reading_line a); OpenFile (csvfile a)], Uncaught ValueError).
Proof.
  intros Hm Hf Hh Hr H1 H2 Hd.
  assert (E : Numpy.array2d m = raise ValueError)
    by (apply array2d_ragged; exists r1, r2; auto).
  rewrite (main_read a w raw Hm Hf). unfold process.
  rewrite Hh, bind_lift_ok, Hr, bind_lift_ok.
  destruct m as [|r m]; [contradiction|].
  rewrite E. reflexivity.
Qed.

Lemma ragged_rows_stop_witness :
  main (sample_args None)
       (sample_env true ("t,1.0,2.0" ++ nl ++ "0,-50,-60" ++ nl ++ "1000,-55" ++ nl)) =
    ([Stdout "Reading spectrum.csv..."; OpenFile "spectrum.csv"], Uncaught ValueError).
Proof.
  apply (ragged_rows_stop (sample_args None)
           (sample_env true ("t,1.0,2.0" ++ nl ++ "0,-50,-60" ++ nl ++ "1000,-55" ++ nl))
           ("t,1.0,2.0" ++ nl ++ "0,-50,-60" ++ nl ++ "1000,-55" ++ nl)
           (map F64.of_Z [1; 2]) [0; 1000]
           [map F64.of_Z [-50; -60]; map F64.of_Z [-55]]
           (map F64.of_Z [-50; -60]) (map F64.of_Z [-55])).
  - reflexivity.
  - reflexivity.
  - vm_compute. reflexivity.
  - vm_compute. reflexivity.
  - left. reflexivity.
  - right. left. reflexivity.
  - discriminate.
Defined.



(** A run in which [imshow] rejects what it is given: the summary has
    been printed, nothing is delivered. *)
Example bad_image_run :
  main (sample_args (Some "out.png")) (bad_image_env sample_csv) =
    ([Stdout "Reading spectrum.csv..."; OpenFile "spectrum.csv";
      Stdout "Loaded 2 frames, 3 frequency bins";
      Stdout "Frequency range: 1.000 - 3.000 MHz";
      Stdout "Duration: 1.00 seconds";
      Subplots 12 6;
      Imshow [map F64.of_Z [-50; -60; -70]; map F64.of_Z [-55; -65; -75]]
             [F64.of_Z 1; F64.of_Z 3; F64.of_Z 1; F64.zero false]
             "viridis" (F64.of_Z (-80)) (F64.of_Z (-30))],
     Uncaught (LibraryError "ValueError")).
Proof. vm_compute. reflexivity. Qed.

Lemma no_kept_lines (lines : list string) :
  filter kept lines = [] <-> forall line, In line lines -> few_fields line.
Proof.
  split.
  - intros H line Hin.
    destruct (kept line) eqn:K.
    + assert (X : In line (filter kept lines)) by (apply filter_In; auto).
      rewrite H in X. contradiction.
    + unfold kept in K. apply negb_false_iff, Nat.ltb_lt in K. exact K.
  - intros H. induction lines as [|l ls IH]; [reflexivity|].
    simpl. replace (kept l) with false.
    + apply IH. intros line Hl. apply H. right. exact Hl.
    + symmetry. unfold kept. apply negb_false_iff, Nat.ltb_lt.
      apply (H l). left. reflexivity.
Qed.

(** X21. The empty-dataset error is reported exactly when the header
    parses and no data line has a comma: the run is then the line that
    announces the read, the open, the error on standard error, and
    [sys.exit(1)]. *)
Theorem no_data_error_iff (a : args) (w : env) (raw : string) :
  matplotlib_installed w = true ->
  file_text w (csvfile a) = Some raw ->
  (main a w =
     ([Stdout (reading_line a); OpenFile (csvfile a);
       Stderr "Error: No data rows found in CSV"], Exit 1)
   <->
   (exists freqs, parse_header (header_of raw) = ok freqs) /\
   (forall line, In line (lines_of raw) -> few_fields line)).
Proof.
  intros Hm Hf. split.
  - intros H. apply main_run in H.
    destruct H as [Hm' _ _ | Hm' Hf' _ _ | raw' t' r _ Hf' C Ht Ho]; try congruence.
    rewrite Hf in Hf'. injection Hf' as <-.
    destruct C as [H -> -> | f H1 H2 -> -> | f ts H1 H2 -> -> | f ts m H1 H2 H3 H4 -> ->
                  | f ts m H1 H2 H3 H4 H5 H6 -> -> | ts m time L -> -> | f ts m time L Hn Hq -> ->
                | f ts m time pre e post cls L Hn Hc Hp He -> ->];
      try discriminate.
    split; [exists f; exact H1|].
    apply no_kept_lines.
    destruct (row_count_aux _ _ _ H2) as [E _].
    destruct (filter kept (lines_of raw)); [reflexivity | discriminate E].
  - intros [[freqs Hh] Hl].
    apply no_kept_lines in Hl.
    rewrite (main_read a w raw Hm Hf). unfold process.
    rewrite Hh, bind_lift_ok, parse_rows_filter_map, Hl. reflexivity.
Qed.

Lemma no_data_error_iff_witness :
  main (sample_args None)
       (sample_env true ("t,1.0" ++ nl ++ nl ++ "no data yet" ++ nl)) =
    ([Stdout "Reading spectrum.csv..."; OpenFile "spectrum.csv";
      Stderr "Error: No data rows found in CSV"], Exit 1).
Proof.
  apply (no_data_error_iff (sample_args None)
           (sample_env true ("t,1.0" ++ nl ++ nl ++ "no data yet" ++ nl))
           ("t,1.0" ++ nl ++ nl ++ "no data yet" ++ nl)); try reflexivity.
  split.
  - exists [F64.of_Z 1]. vm_compute. reflexivity.
  - intros line [<-|[<-|[]]]; unfold few_fields; vm_compute; lia.
Defined.

Lemma int64_axis (ts : list Z) :
  ts <> [] ->
  (forall t, In t ts ->
     Numpy.in_int64 t = true /\ Numpy.in_int64 (t - hd 0 ts) = true) ->
  Numpy.relative_seconds (Numpy.array_of_ints ts) =
    ok (map (fun t => F64.div (F64.of_Z (t - hd 0 ts)) F64.thousand) ts).
Proof.
  intros Hn H. unfold Numpy.array_of_ints.
  rewrite (common_dtype_int64 ts Hn) by (intros t Ht; apply (H t Ht)).
  unfold Numpy.relative_seconds. rewrite (py_index_hd _ 0 Hn). simpl.
  f_equal. apply map_ext_in. intros t Ht.
  rewrite wrap_int64_small by (apply (H t Ht)). reflexivity.
Qed.

(** X22. Only differences of timestamps matter: adding one constant to
    every timestamp leaves the relative time axis unchanged, as long as
    the timestamps before and after the shift, and their differences
    from the first, fit a signed 64-bit integer. *)
Theorem time_axis_shift (ts : list Z) (k : Z) :
  ts <> [] ->
  (forall t, In t ts ->
     Numpy.in_int64 t = true /\ Numpy.in_int64 (t + k) = true /\
     Numpy.in_int64 (t - hd 0 ts) = true) ->
  Numpy.relative_seconds (Numpy.array_of_ints (map (fun t => t + k) ts)) =
  Numpy.relative_seconds (Numpy.array_of_ints ts).
Proof.
  intros Hn H.
  destruct ts as [|t0 ts]; [contradiction|].
  rewrite (int64_axis (t0 :: ts)) by (discriminate || (intros t Ht; split; apply (H t Ht))).
  rewrite (int64_axis (map (fun t => t + k) (t0 :: ts))).
  - rewrite map_map. f_equal. apply map_ext. intros t. simpl hd.
    replace (t + k - (t0 + k)) with (t - t0) by lia. reflexivity.
  - discriminate.
  - intros t Ht. apply in_map_iff in Ht. destruct Ht as (u & <- & Hu).
    simpl hd. replace (u + k - (t0 + k)) with (u - t0) by lia.
    split; apply (H u Hu).
Qed.

Lemma time_axis_shift_witness :
  Numpy.relative_seconds
    (Numpy.array_of_ints (map (fun t => t + 1700000000000) [0; 250; 1000])) =
  Numpy.relative_seconds (Numpy.array_of_ints [0; 250; 1000]).
Proof.
  apply (time_axis_shift [0; 250; 1000] 1700000000000); [discriminate|].
  intros t [<-|[<-|[<-|[]]]]; repeat split.
Defined.




